(** * Noshiro: the input manager of src/index.ts

    A shallow embedding of [InputManager] and [GameInputController].

    Strings are [String.string]: a sequence of code units, each [ascii]
    standing for the code unit of the same number (0..255).  The
    ECMAScript operations used by the source ([trim], [toLowerCase], the
    regular expressions [/\s+$/] and [/\s*$/]) are written out on that
    range.

    The manager holds references to objects it does not own (the input
    and output streams, the logger).  The embedding passes the state of
    those objects along with the manager's own fields. *)

From Stdlib Require Import String Ascii List Bool NArith Arith Lia.
Import ListNotations.

Open Scope string_scope.
Open Scope list_scope.

(** ** ECMAScript strings *)

Module JsString.

(** [WhiteSpace] and [LineTerminator] code points below 256:
    TAB, LF, VT, FF, CR, SP and NBSP.  This is the class [\s] and the
    set that [String.prototype.trim] strips. *)
Definition isWhiteSpace (c : ascii) : bool :=
  let n := N_of_ascii c in
  (((9 <=? n) && (n <=? 13)) || (n =? 32) || (n =? 160))%N.

Fixpoint allWhiteSpace (s : string) : bool :=
  match s with
  | EmptyString => true
  | String c t => isWhiteSpace c && allWhiteSpace t
  end.

(** [String.prototype.trimStart] *)
Fixpoint trimStart (s : string) : string :=
  match s with
  | EmptyString => EmptyString
  | String c t => if isWhiteSpace c then trimStart t else s
  end.

(** [String.prototype.trimEnd]: the longest prefix that does not end
    in white space. *)
Fixpoint trimEnd (s : string) : string :=
  match s with
  | EmptyString => EmptyString
  | String c t => if allWhiteSpace s then EmptyString else String c (trimEnd t)
  end.

(** [String.prototype.trim] *)
Definition trim (s : string) : string := trimEnd (trimStart s).

(** [s.replace(/\s+$/, r)].  The pattern has no [g] flag: the leftmost
    match is replaced.  A match starts at the first index from which
    the rest of the string is a non-empty run of white space; without
    one the string is returned as it is. *)
Fixpoint replaceTrailingSpaces (s r : string) : string :=
  match s with
  | EmptyString => EmptyString
  | String c t =>
      if allWhiteSpace s then r else String c (replaceTrailingSpaces t r)
  end.

(** [s.replace(/\s*$/, r)].  The leftmost match starts at the first
    index from which the rest of the string is white space, possibly
    none: the pattern always matches, at the latest at the end. *)
Fixpoint replaceTrailingSpacesOpt (s r : string) : string :=
  match s with
  | EmptyString => r
  | String c t =>
      if allWhiteSpace s then r else String c (replaceTrailingSpacesOpt t r)
  end.

(** [toLowerCase] on one code unit below 256: A-Z and the capital
    letters U+00C0..U+00DE, the multiplication sign U+00D7 apart. *)
Definition toLowerChar (c : ascii) : ascii :=
  let n := N_of_ascii c in
  if (((65 <=? n) && (n <=? 90))
      || ((192 <=? n) && (n <=? 222) && negb (n =? 215)))%N
  then ascii_of_N (n + 32)
  else c.

(** [String.prototype.toLowerCase] *)
Fixpoint toLowerCase (s : string) : string :=
  match s with
  | EmptyString => EmptyString
  | String c t => String (toLowerChar c) (toLowerCase t)
  end.

(** Strict equality [===] of two strings. *)
Definition strictEq (a b : string) : bool := String.eqb a b.

End JsString.

Import JsString.

(** ** Errors, outcomes and the logger *)

(** [new Error(message)] *)
Inductive JsError : Type :=
| Error (message : string).

(** How a call ends.  A synchronous method returns or throws; an [async]
    method also stays [Pending] when it awaits a line that never comes. *)
Inductive Outcome (A : Type) : Type :=
| Returned (value : A)
| Threw (error : JsError)
| Pending.

Arguments Returned {A} value.
Arguments Threw {A} error.
Arguments Pending {A}.

(** [InputLogger]: every channel is optional; a field tells whether the
    channel is defined. *)
Record InputLogger : Type := {
  info : bool;
  warn : bool;
  error : bool
}.

(** A value handed to a logger channel. *)
Inductive LogValue : Type :=
| LogString (s : string)
| LogThrown (e : JsError).

(** A call received by a logger channel. *)
Inductive LogEntry : Type :=
| Warned (args : list LogValue)
| Errored (args : list LogValue).

(** [NodeJS.WriteStream]: the texts written to it, oldest first. *)
Record WriteStream : Type := {
  written : list string
}.

(** A chunk delivered by the ['data'] event.  Node's decoder is not part
    of this repository: a chunk comes with the text that its
    [toString()] yields. *)
Record Buffer : Type := {
  bytes : list ascii;
  toString : string
}.

Module YesNoPromptOptions.
(** [YesNoPromptOptions] *)
Record t : Type := {
  defaultValue : option bool
}.
End YesNoPromptOptions.

Module TextPromptOptions.
(** [TextPromptOptions] *)
Record t : Type := {
  defaultValue : option string;
  allowEmpty : option bool
}.
End TextPromptOptions.

(** Truthiness of an optional boolean: [undefined] and [false] are falsy. *)
Definition truthy (b : option bool) : bool :=
  match b with
  | Some true => true
  | _ => false
  end.

Definition ESC : string := String "027" EmptyString.
Definition CR : string := String "013" EmptyString.
Definition LF : string := String "010" EmptyString.

(** ** Streams, listeners and the manager *)

Section Model.

(** The part of the program outside the manager that key handlers act
    on.  A handler [(key: string) => void] is what it does to it; a
    handler that calls back into the manager is not covered. *)
Context {U : Type}.

Definition Handler : Type := string -> U -> U.

(** The arrow function [(data: Buffer) => { handler(data.toString()); }]
    that [enableRawMode] creates.  Every evaluation of the arrow
    expression yields a new function object: [closure] is its identity,
    the one [off] compares. *)
Record Listener : Type := {
  closure : nat;
  handler : Handler
}.

(** [NodeJS.ReadStream], the part the manager uses.  The first four
    fields describe the stream: whether it is attached to a terminal,
    its optional [setRawMode] method ([Some e] when the call throws
    [e]), and what [resume()] and [pause()] throw, if anything.  The
    others are its state: the terminal mode, whether it flows, the
    ['data'] listeners in registration order, and the lines the terminal
    will deliver to a line reader.

    The first four fields tell how the stream behaves at present.  No
    method of the manager changes them; what is outside the program
    does, between two calls: a terminal that goes away makes a later
    [setRawMode] throw where an earlier one went through ([unplug]
    below). *)
Record ReadStream : Type := {
  isTTY : bool;
  setRawMode : option (bool -> option JsError);
  resumeThrows : option JsError;
  pauseThrows : option JsError;
  rawMode : bool;
  flowing : bool;
  listeners : list Listener;
  lines : list string
}.

Definition withRawMode (b : bool) (s : ReadStream) : ReadStream :=
  {| isTTY := isTTY s; setRawMode := setRawMode s;
     resumeThrows := resumeThrows s; pauseThrows := pauseThrows s;
     rawMode := b; flowing := flowing s;
     listeners := listeners s; lines := lines s |}.

Definition withFlowing (b : bool) (s : ReadStream) : ReadStream :=
  {| isTTY := isTTY s; setRawMode := setRawMode s;
     resumeThrows := resumeThrows s; pauseThrows := pauseThrows s;
     rawMode := rawMode s; flowing := b;
     listeners := listeners s; lines := lines s |}.

Definition withListeners (ls : list Listener) (s : ReadStream) : ReadStream :=
  {| isTTY := isTTY s; setRawMode := setRawMode s;
     resumeThrows := resumeThrows s; pauseThrows := pauseThrows s;
     rawMode := rawMode s; flowing := flowing s;
     listeners := ls; lines := lines s |}.

Definition withLines (l : list string) (s : ReadStream) : ReadStream :=
  {| isTTY := isTTY s; setRawMode := setRawMode s;
     resumeThrows := resumeThrows s; pauseThrows := pauseThrows s;
     rawMode := rawMode s; flowing := flowing s;
     listeners := listeners s; lines := l |}.

(** [stream.setRawMode?.(mode)] *)
Definition callSetRawMode (mode : bool) (s : ReadStream) : JsError + ReadStream :=
  match setRawMode s with
  | None => inr s
  | Some f =>
      match f mode with
      | Some e => inl e
      | None => inr (withRawMode mode s)
      end
  end.

(** [stream.resume()] *)
Definition callResume (s : ReadStream) : JsError + ReadStream :=
  match resumeThrows s with
  | Some e => inl e
  | None => inr (withFlowing true s)
  end.

(** [stream.pause()] *)
Definition callPause (s : ReadStream) : JsError + ReadStream :=
  match pauseThrows s with
  | Some e => inl e
  | None => inr (withFlowing false s)
  end.

(** [stream.on('data', l)]: the listener is appended. *)
Definition on (l : Listener) (s : ReadStream) : ReadStream :=
  withListeners (listeners s ++ [l]) s.

(** Removes the most recently added occurrence of a function object. *)
Fixpoint removeLast (id : nat) (ls : list Listener) : list Listener :=
  match ls with
  | [] => []
  | l :: rest =>
      if existsb (fun l' => Nat.eqb (closure l') id) rest
      then l :: removeLast id rest
      else if Nat.eqb (closure l) id then rest else l :: rest
  end.

(** [stream.off('data', l)] *)
Definition off (l : Listener) (s : ReadStream) : ReadStream :=
  withListeners (removeLast (closure l) (listeners s)) s.

(** The body of a listener: [handler(data.toString())]. *)
Definition callListener (data : Buffer) (l : Listener) (u : U) : U :=
  handler l (toString data) u.

(** [stream.emit('data', data)]: the listeners run in registration
    order. *)
Definition emit (data : Buffer) (s : ReadStream) (u : U) : U :=
  fold_left (fun u' l => callListener data l u') (listeners s) u.

(** [InputManager].  The first five fields are those of the class; the
    streams stand for the objects the fields refer to.  The last three
    are the state of what lies around it: the calls the logger has
    received, the number of function objects created so far, and the
    number of [readline] interfaces that are open. *)
Record InputManager : Type := {
  stdin : option ReadStream;
  stdout : option WriteStream;
  logger : option InputLogger;
  rawInputHandler : option Listener;
  rawModeEnabled : bool;
  logged : list LogEntry;
  allocated : nat;
  openInterfaces : nat
}.

Definition withStdin (x : option ReadStream) (m : InputManager) : InputManager :=
  {| stdin := x; stdout := stdout m; logger := logger m;
     rawInputHandler := rawInputHandler m; rawModeEnabled := rawModeEnabled m;
     logged := logged m; allocated := allocated m;
     openInterfaces := openInterfaces m |}.

Definition withStdout (x : option WriteStream) (m : InputManager) : InputManager :=
  {| stdin := stdin m; stdout := x; logger := logger m;
     rawInputHandler := rawInputHandler m; rawModeEnabled := rawModeEnabled m;
     logged := logged m; allocated := allocated m;
     openInterfaces := openInterfaces m |}.

Definition withRawInputHandler (x : option Listener) (m : InputManager) : InputManager :=
  {| stdin := stdin m; stdout := stdout m; logger := logger m;
     rawInputHandler := x; rawModeEnabled := rawModeEnabled m;
     logged := logged m; allocated := allocated m;
     openInterfaces := openInterfaces m |}.

Definition withRawModeEnabled (x : bool) (m : InputManager) : InputManager :=
  {| stdin := stdin m; stdout := stdout m; logger := logger m;
     rawInputHandler := rawInputHandler m; rawModeEnabled := x;
     logged := logged m; allocated := allocated m;
     openInterfaces := openInterfaces m |}.

Definition withLogged (x : list LogEntry) (m : InputManager) : InputManager :=
  {| stdin := stdin m; stdout := stdout m; logger := logger m;
     rawInputHandler := rawInputHandler m; rawModeEnabled := rawModeEnabled m;
     logged := x; allocated := allocated m;
     openInterfaces := openInterfaces m |}.

Definition withAllocated (x : nat) (m : InputManager) : InputManager :=
  {| stdin := stdin m; stdout := stdout m; logger := logger m;
     rawInputHandler := rawInputHandler m; rawModeEnabled := rawModeEnabled m;
     logged := logged m; allocated := x;
     openInterfaces := openInterfaces m |}.

Definition withOpenInterfaces (x : nat) (m : InputManager) : InputManager :=
  {| stdin := stdin m; stdout := stdout m; logger := logger m;
     rawInputHandler := rawInputHandler m; rawModeEnabled := rawModeEnabled m;
     logged := logged m; allocated := allocated m;
     openInterfaces := x |}.

(** [InputManagerOptions] *)
Record InputManagerOptions : Type := {
  optStdin : option ReadStream;
  optStdout : option WriteStream;
  optLogger : option InputLogger
}.

(** [stdin] and [stdout] of [node:process]. *)
Record Process : Type := {
  defaultStdin : option ReadStream;
  defaultStdout : option WriteStream
}.

(** [a ?? b] *)
Definition nullish {A : Type} (a b : option A) : option A :=
  match a with
  | Some x => Some x
  | None => b
  end.

(** [new InputManager(options)] *)
Definition newInputManager (process : Process) (options : InputManagerOptions)
  : InputManager :=
  {| stdin := nullish (optStdin options) (defaultStdin process);
     stdout := nullish (optStdout options) (defaultStdout process);
     logger := optLogger options;
     rawInputHandler := None;
     rawModeEnabled := false;
     logged := [];
     allocated := 0;
     openInterfaces := 0 |}.

(** ** Methods as state transformers *)

(** A method of the manager: from the manager before the call to how the
    call ends and the manager after it. *)
Definition M (A : Type) : Type := InputManager -> Outcome A * InputManager.

Definition ret {A : Type} (a : A) : M A := fun m => (Returned a, m).

Definition throw {A : Type} (e : JsError) : M A := fun m => (Threw e, m).

(** [await] on a promise that is never settled. *)
Definition suspend {A : Type} : M A := fun m => (Pending, m).

Definition bind {A B : Type} (c : M A) (k : A -> M B) : M B :=
  fun m =>
    match c m with
    | (Returned a, m') => k a m'
    | (Threw e, m') => (Threw e, m')
    | (Pending, m') => (Pending, m')
    end.

Definition gets {A : Type} (f : InputManager -> A) : M A :=
  fun m => (Returned (f m), m).

Definition modify (f : InputManager -> InputManager) : M unit :=
  fun m => (Returned tt, f m).

(** [try { body } catch (error) { handle(error) }] *)
Definition tryCatch {A : Type} (body : M A) (handle : JsError -> M A) : M A :=
  fun m =>
    match body m with
    | (Threw e, m') => handle e m'
    | r => r
    end.

(** [try { body } finally { final }]: [final] runs when [body] returns
    or throws, not while it is suspended. *)
Definition tryFinally {A : Type} (body : M A) (final : M unit) : M A :=
  fun m =>
    match body m with
    | (Pending, m') => (Pending, m')
    | (r, m') =>
        match final m' with
        | (Returned _, m'') => (r, m'')
        | (Threw e, m'') => (Threw e, m'')
        | (Pending, m'') => (Pending, m'')
        end
    end.

End Model.

Arguments Listener U : clear implicits.
Arguments ReadStream U : clear implicits.
Arguments InputManager U : clear implicits.
Arguments InputManagerOptions U : clear implicits.
Arguments Process U : clear implicits.
Arguments Handler U : clear implicits.
Arguments M U A : clear implicits.

Declare Scope method_scope.
Delimit Scope method_scope with method.

Notation "x <- c ;; k" := (bind c (fun x => k))
  (at level 61, c at next level, right associativity) : method_scope.
Notation "c ;; k" := (bind c (fun _ => k))
  (at level 61, right associativity) : method_scope.

Open Scope method_scope.

Section Methods.

Context {U : Type}.

(** A method call on [this.stdin] that may throw.  On [null] the call is
    a [TypeError]; the guards of the manager keep it from happening. *)
Definition onStdin (op : ReadStream U -> JsError + ReadStream U) : M U unit :=
  fun m =>
    match stdin m with
    | None => (Threw (Error "Cannot read properties of null"), m)
    | Some s =>
        match op s with
        | inl e => (Threw e, m)
        | inr s' => (Returned tt, withStdin (Some s') m)
        end
    end.

(** [this.logger?.warn?.(...args)] *)
Definition warned (args : list LogValue) (m : InputManager U) : InputManager U :=
  match logger m with
  | Some lg => if warn lg then withLogged (logged m ++ [Warned args]) m else m
  | None => m
  end.

Definition logWarn (args : list LogValue) : M U unit := modify (warned args).

(** [this.logger?.error?.(...args)] *)
Definition errored (args : list LogValue) (m : InputManager U) : InputManager U :=
  match logger m with
  | Some lg => if error lg then withLogged (logged m ++ [Errored args]) m else m
  | None => m
  end.

Definition logError (args : list LogValue) : M U unit := modify (errored args).

(** [this.stdin?.isTTY], as the condition of an [if]. *)
Definition stdinIsTTY (m : InputManager U) : bool :=
  match stdin m with
  | Some s => isTTY s
  | None => false
  end.

(** [isInteractive()]: [Boolean(this.stdin?.isTTY && this.stdout)] *)
Definition isInteractive (m : InputManager U) : bool :=
  stdinIsTTY m && match stdout m with Some _ => true | None => false end.

(** Evaluates the arrow expression of [enableRawMode]: a new function
    object that forwards to [h]. *)
Definition newListener (h : Handler U) : M U (Listener U) :=
  fun m =>
    (Returned {| closure := allocated m; handler := h |},
     withAllocated (S (allocated m)) m).

(** [enableRawMode(handler)] *)
Definition enableRawMode (h : Handler U) : M U bool :=
  tty <- gets stdinIsTTY ;;
  if negb tty then ret false else
  switched <- tryCatch
    (onStdin (callSetRawMode true) ;;
     onStdin callResume ;;
     modify (withRawModeEnabled true) ;;
     ret true)
    (fun e =>
       logError [LogString "Failed to enable raw mode input:"; LogThrown e] ;;
       ret false) ;;
  if negb switched then ret false else
  l <- newListener h ;;
  modify (withRawInputHandler (Some l)) ;;
  onStdin (fun s => inr (on l s)) ;;
  ret true.

(** [disableRawMode()] *)
Definition disableRawMode : M U unit :=
  s <- gets stdin ;;
  match s with
  | None => ret tt
  | Some _ =>
      r <- gets rawInputHandler ;;
      match r with
      | Some l =>
          onStdin (fun s => inr (off l s)) ;;
          modify (withRawInputHandler None)
      | None => ret tt
      end ;;
      enabled <- gets rawModeEnabled ;;
      if enabled then
        tryCatch
          (onStdin (callSetRawMode false) ;;
           onStdin callPause)
          (fun e =>
             logWarn [LogString "Failed to disable raw mode cleanly:"; LogThrown e]) ;;
        modify (withRawModeEnabled false)
      else ret tt
  end.

(** A chunk arrives on the input: [this.stdin] emits ['data']. *)
Definition deliver (data : Buffer) (m : InputManager U) (u : U) : U :=
  match stdin m with
  | Some s => emit data s u
  | None => u
  end.

(** ** Prompts *)

(** [readline.createInterface({ input: stdin, output: stdout })].
    [node:readline] is not part of this repository: of an interface the
    embedding keeps that it is open, the prompt it writes and the line
    it hands over.  What the interface does to the input stream on its
    own account (its listeners, resuming and pausing, the mode of the
    terminal) is left out. *)
Definition opened (m : InputManager U) : InputManager U :=
  withOpenInterfaces (S (openInterfaces m)) m.

Definition createInterface : M U unit := modify opened.

(** [rl.close()]: the interface is no longer open.  What closing does
    to the input stream is left out, as above. *)
Definition closed (m : InputManager U) : InputManager U :=
  withOpenInterfaces (Nat.pred (openInterfaces m)) m.

Definition rlClose : M U unit := modify closed.

(** [rl.question(query, resolve)] first writes the query to the output. *)
Definition displayed (query : string) (m : InputManager U) : InputManager U :=
  match stdout m with
  | Some w => withStdout (Some {| written := written w ++ [query] |}) m
  | None => m
  end.

Definition display (query : string) : M U unit := modify (displayed query).

(** The line reader takes the next line of the terminal. *)
Definition lineTaken (m : InputManager U) : InputManager U :=
  match stdin m with
  | Some s => withStdin (Some (withLines (tl (lines s)) s)) m
  | None => m
  end.

Definition takeLine : M U unit := modify lineTaken.

(** The [while (true)] loop of [promptYesNo].  [input] is the lines the
    terminal still delivers: each iteration takes its head, and the
    [await] never resumes when there is none. *)
Fixpoint yesNoLoop (promptText : string) (options : YesNoPromptOptions.t)
  (input : list string) {struct input} : M U bool :=
  display promptText ;;
  match input with
  | [] => suspend
  | answer :: rest =>
      takeLine ;;
      let normalized := toLowerCase (trim answer) in
      match strictEq normalized "", YesNoPromptOptions.defaultValue options with
      | true, Some d => ret d
      | _, _ =>
          if strictEq normalized "y" || strictEq normalized "yes" then ret true
          else if strictEq normalized "n" || strictEq normalized "no" then ret false
          else
            logWarn [LogString "Please answer with y or n."] ;;
            yesNoLoop promptText options rest
      end
  end.

(** The prompt of [promptYesNo]. *)
Definition yesNoPromptText (question : string) : string :=
  let trimmedQuestion := replaceTrailingSpaces (trim question) "" in
  trimmedQuestion ++ " (y/n): ".

(** [promptYesNo(question, options)] *)
Definition promptYesNo (question : string) (options : YesNoPromptOptions.t)
  : M U bool :=
  interactive <- gets isInteractive ;;
  if negb interactive then
    match YesNoPromptOptions.defaultValue options with
    | Some d => ret d
    | None => throw (Error "TTY input is not available for yes/no prompt.")
    end
  else
    i <- gets stdin ;;
    o <- gets stdout ;;
    match i, o with
    | Some s, Some _ =>
        let promptText := yesNoPromptText question in
        createInterface ;;
        tryFinally (yesNoLoop promptText options (lines s)) rlClose
    | _, _ => throw (Error "TTY input is not available for yes/no prompt.")
    end.

(** The [while (true)] loop of [promptText]. *)
Fixpoint textLoop (promptText : string) (options : TextPromptOptions.t)
  (input : list string) {struct input} : M U string :=
  display promptText ;;
  match input with
  | [] => suspend
  | answer :: rest =>
      takeLine ;;
      let trimmed := trim answer in
      if Nat.eqb (String.length trimmed) 0 then
        match TextPromptOptions.defaultValue options with
        | Some d => ret d
        | None =>
            if truthy (TextPromptOptions.allowEmpty options) then ret ""
            else
              logWarn [LogString "Input cannot be empty."] ;;
              textLoop promptText options rest
        end
      else ret trimmed
  end.

(** The prompt of [promptText]. *)
Definition textPromptText (question : string) : string :=
  replaceTrailingSpacesOpt (trim question) ": ".

(** [promptText(question, options)] *)
Definition promptText (question : string) (options : TextPromptOptions.t)
  : M U string :=
  interactive <- gets isInteractive ;;
  if negb interactive then
    match TextPromptOptions.defaultValue options with
    | Some d => ret d
    | None => throw (Error "TTY input is not available for text prompt.")
    end
  else
    i <- gets stdin ;;
    o <- gets stdout ;;
    match i, o with
    | Some s, Some _ =>
        let promptText := textPromptText question in
        createInterface ;;
        tryFinally (textLoop promptText options (lines s)) rlClose
    | _, _ => throw (Error "TTY input is not available for text prompt.")
    end.

(** ** GameInputController *)

(** What [onAdvance] returns: [void | Promise<void>]. *)
Inductive AdvanceResult : Type :=
| Void
| PromiseVoid.

(** [ManualControlHandlers] *)
Record ManualControlHandlers : Type := {
  onExit : U -> U;
  onAdvance : U -> AdvanceResult * U
}.

(** [GameInputController] *)
Record GameInputController : Type := {
  inputManager : InputManager U
}.

(** [new GameInputController(inputManager)] *)
Definition newGameInputController (process : Process U)
  (given : option (InputManager U)) : GameInputController :=
  {| inputManager :=
       match given with
       | Some m => m
       | None =>
           newInputManager process
             {| optStdin := None; optStdout := None; optLogger := None |}
       end |}.

(** The arrow function that [attachManualControls] hands to
    [enableRawMode].  What [onAdvance] returns is dropped by [void]. *)
Definition manualControls (handlers : ManualControlHandlers) : Handler U :=
  fun key u =>
    if strictEq key ESC then onExit handlers u
    else if strictEq key CR || strictEq key LF then snd (onAdvance handlers u)
    else u.

(** [attachManualControls(handlers)] *)
Definition attachManualControls (handlers : ManualControlHandlers)
  (c : GameInputController) : Outcome bool * GameInputController :=
  let (r, m) := enableRawMode (manualControls handlers) (inputManager c) in
  (r, {| inputManager := m |}).

(** [detachManualControls()] *)
Definition detachManualControls (c : GameInputController)
  : Outcome unit * GameInputController :=
  let (r, m) := disableRawMode (inputManager c) in
  (r, {| inputManager := m |}).

End Methods.

Arguments ManualControlHandlers U : clear implicits.
Arguments GameInputController U : clear implicits.

(** ** Observations and sample configurations *)

(** The texts written to the output handle so far. *)
Definition output {U : Type} (m : InputManager U) : list string :=
  match stdout m with
  | Some w => written w
  | None => []
  end.

(** The ['data'] listeners registered on the input handle. *)
Definition dataListeners {U : Type} (m : InputManager U) : list (Listener U) :=
  match stdin m with
  | Some s => listeners s
  | None => []
  end.

(** Whether [this.logger?.warn] is defined. *)
Definition warns {U : Type} (m : InputManager U) : bool :=
  match logger m with
  | Some lg => warn lg
  | None => false
  end.

(** Whether the switch to raw mode of [enableRawMode] goes through:
    neither [setRawMode?.(true)] nor [resume()] throws. *)
Definition rawModeAvailable {U : Type} (s : ReadStream U) : bool :=
  match callSetRawMode true s with
  | inl _ => false
  | inr s' => match callResume s' with inl _ => false | inr _ => true end
  end.

(** What a stream is, as opposed to the state it is in. *)
Definition sameDevice {U : Type} (s s' : ReadStream U) : Prop :=
  isTTY s' = isTTY s
  /\ setRawMode s' = setRawMode s
  /\ resumeThrows s' = resumeThrows s
  /\ pauseThrows s' = pauseThrows s.

(** One iteration of a prompt loop that ends in a warning: the prompt
    is written, a line is taken, the logger is called. *)
Definition retried {U : Type} (promptText warning : string) (m : InputManager U)
  : InputManager U :=
  warned [LogString warning] (lineTaken (displayed promptText m)).

(** One iteration of a prompt loop that ends in [return]. *)
Definition answered {U : Type} (promptText : string) (m : InputManager U)
  : InputManager U :=
  lineTaken (displayed promptText m).

(** What the body of the loop of [promptYesNo] does with one line:
    [Some b] when it returns [b], [None] when it warns and goes on. *)
Definition yesNoAnswer (options : YesNoPromptOptions.t) (answer : string)
  : option bool :=
  let normalized := toLowerCase (trim answer) in
  match strictEq normalized "", YesNoPromptOptions.defaultValue options with
  | true, Some d => Some d
  | _, _ =>
      if strictEq normalized "y" || strictEq normalized "yes" then Some true
      else if strictEq normalized "n" || strictEq normalized "no" then Some false
      else None
  end.

(** The same for [promptText]. *)
Definition textAnswer (options : TextPromptOptions.t) (answer : string)
  : option string :=
  let trimmed := trim answer in
  if Nat.eqb (String.length trimmed) 0 then
    match TextPromptOptions.defaultValue options with
    | Some d => Some d
    | None => if truthy (TextPromptOptions.allowEmpty options) then Some "" else None
    end
  else Some trimmed.

(** Handlers that record their calls: the name of the handler and the
    key it received. *)
Definition Calls : Type := list (string * string).

Definition recording (name : string) : Handler Calls :=
  fun key calls => calls ++ [(name, key)].

(** Handlers that count: exits on the left, advances on the right. *)
Definition counting : ManualControlHandlers (nat * nat) :=
  {| onExit := fun c => (S (fst c), snd c);
     onAdvance := fun c => (PromiseVoid, (fst c, S (snd c))) |}.

(** A terminal on which raw mode works, about to deliver [input]. *)
Definition terminal {U : Type} (input : list string) : ReadStream U :=
  {| isTTY := true;
     setRawMode := Some (fun _ => None);
     resumeThrows := None;
     pauseThrows := None;
     rawMode := false;
     flowing := false;
     listeners := [];
     lines := input |}.

(** A terminal whose [setRawMode] throws. *)
Definition cookedTerminal {U : Type} : ReadStream U :=
  {| isTTY := true;
     setRawMode := Some (fun _ => Some (Error "setRawMode EIO"));
     resumeThrows := None;
     pauseThrows := None;
     rawMode := false;
     flowing := false;
     listeners := [];
     lines := [] |}.

(** An input that is not a terminal: a pipe or a file. *)
Definition pipe {U : Type} : ReadStream U :=
  {| isTTY := false;
     setRawMode := None;
     resumeThrows := None;
     pauseThrows := None;
     rawMode := false;
     flowing := false;
     listeners := [];
     lines := [] |}.

Definition blankOutput : WriteStream := {| written := [] |}.

Definition fullLogger : InputLogger :=
  {| info := true; warn := true; error := true |}.

Definition nodeProcess {U : Type} : Process U :=
  {| defaultStdin := Some pipe; defaultStdout := Some blankOutput |}.

(** [new InputManager({ stdin, stdout, logger })] *)
Definition managerOn {U : Type} (s : ReadStream U) : InputManager U :=
  newInputManager nodeProcess
    {| optStdin := Some s; optStdout := Some blankOutput;
       optLogger := Some fullLogger |}.

Definition noDefault : YesNoPromptOptions.t :=
  {| YesNoPromptOptions.defaultValue := None |}.

Definition chunk (text : string) : Buffer :=
  {| bytes := list_ascii_of_string text; toString := text |}.

(** ** Call sequences and further observations *)

(** The lines the terminal has still to deliver. *)
Definition pendingLines {U : Type} (m : InputManager U) : list string :=
  match stdin m with
  | Some s => lines s
  | None => []
  end.

(** The first line on which the body of a prompt loop returns: the
    number of lines it rejects before, and what it returns. *)
Fixpoint firstAnswer {A : Type} (decide : string -> option A)
  (input : list string) : option (nat * A) :=
  match input with
  | [] => None
  | answer :: rest =>
      match decide answer with
      | Some a => Some (0, a)
      | None =>
          match firstAnswer decide rest with
          | Some (k, a) => Some (S k, a)
          | None => None
          end
      end
  end.

(** The warnings that [k] rejected lines hand to the logger. *)
Definition warnings {U : Type} (m : InputManager U) (warning : string) (k : nat)
  : list LogEntry :=
  if warns m then repeat (Warned [LogString warning]) k else [].

(** The mode the terminal is in: raw or not, flowing or not. *)
Definition terminalMode {U : Type} (m : InputManager U) : option (bool * bool) :=
  match stdin m with
  | Some s => Some (rawMode s, flowing s)
  | None => None
  end.

(** What of the manager the sequences of calls are followed on: the
    stored handler, the raw mode flag, the listeners on the input and
    the identities handed out. *)
Definition rawState {U : Type} (m : InputManager U)
  : option (Listener U) * bool * list (Listener U) * nat :=
  (rawInputHandler m, rawModeEnabled m, dataListeners m, allocated m).

(** What the prompts work on. *)
Definition promptState {U : Type} (m : InputManager U)
  : list string * list string * nat :=
  (output m, pendingLines m, openInterfaces m).

(** Whether [this.logger?.error] is defined. *)
Definition reportsErrors {U : Type} (m : InputManager U) : bool :=
  match logger m with
  | Some lg => error lg
  | None => false
  end.

(** What the switch to raw mode throws, if anything: the error of
    [setRawMode?.(true)], or else that of [resume()]. *)
Definition switchError {U : Type} (s : ReadStream U) : option JsError :=
  match callSetRawMode true s with
  | inl e => Some e
  | inr s' => match callResume s' with inl e => Some e | inr _ => None end
  end.

(** What the way back throws, if anything: the error of
    [setRawMode?.(false)], or else that of [pause()]. *)
Definition restoreError {U : Type} (s : ReadStream U) : option JsError :=
  match callSetRawMode false s with
  | inl e => Some e
  | inr s' => match callPause s' with inl e => Some e | inr _ => None end
  end.

(** A terminal whose methods do not throw. *)
Definition wellBehaved {U : Type} (s : ReadStream U) : Prop :=
  (exists f, setRawMode s = Some f /\ forall mode, f mode = None)
  /\ resumeThrows s = None
  /\ pauseThrows s = None.

(** The listeners on a stream were all created by the manager: their
    identities are below its count of function objects. *)
Definition createdBefore {U : Type} (m : InputManager U) : Prop :=
  Forall (fun l => closure l < allocated m) (dataListeners m).

(** A call that a user of the manager makes. *)
Inductive Call {U : Type} : Type :=
| CallPromptYesNo (question : string) (options : YesNoPromptOptions.t)
| CallPromptText (question : string) (options : TextPromptOptions.t)
| CallEnableRawMode (h : Handler U)
| CallDisableRawMode.

Arguments Call U : clear implicits.

(** The manager after a call, however the call ends. *)
Definition after {U : Type} (c : Call U) (m : InputManager U) : InputManager U :=
  match c with
  | CallPromptYesNo question options => snd (promptYesNo question options m)
  | CallPromptText question options => snd (promptText question options m)
  | CallEnableRawMode h => snd (enableRawMode h m)
  | CallDisableRawMode => snd (disableRawMode m)
  end.

(** The manager after a sequence of calls, first call first. *)
Definition afterAll {U : Type} (calls : list (Call U)) (m : InputManager U)
  : InputManager U :=
  fold_left (fun m' c => after c m') calls m.

(** What the sequences of calls keep true of the manager: the listeners
    on the input are distinct function objects created before, and a
    stored handler is one of them and goes with the raw mode flag. *)
Definition attachedConsistently {U : Type} (m : InputManager U) : Prop :=
  createdBefore m
  /\ NoDup (map closure (dataListeners m))
  /\ forall l, rawInputHandler m = Some l ->
       In l (dataListeners m) /\ rawModeEnabled m = true.

(** A terminal on which [setRawMode] works and [resume()] throws. *)
Definition stalledTerminal {U : Type} : ReadStream U :=
  {| isTTY := true;
     setRawMode := Some (fun _ => None);
     resumeThrows := Some (Error "resume EBADF");
     pauseThrows := None;
     rawMode := false;
     flowing := false;
     listeners := [];
     lines := [] |}.

(** A terminal that enters raw mode and throws on the way back. *)
Definition stubbornTerminal {U : Type} : ReadStream U :=
  {| isTTY := true;
     setRawMode :=
       Some (fun mode : bool =>
               if mode then @None JsError else Some (Error "setRawMode EIO"));
     resumeThrows := None;
     pauseThrows := None;
     rawMode := false;
     flowing := false;
     listeners := [];
     lines := [] |}.

(** A terminal stream without a [setRawMode] method. *)
Definition plainTerminal {U : Type} : ReadStream U :=
  {| isTTY := true;
     setRawMode := None;
     resumeThrows := None;
     pauseThrows := None;
     rawMode := false;
     flowing := false;
     listeners := [];
     lines := [] |}.

(** A terminal on which some other part of the program listens. *)
Definition sharedTerminal : ReadStream Calls :=
  withListeners [{| closure := 7; handler := recording "other" |}] (terminal []).

Definition noTextDefault : TextPromptOptions.t :=
  {| TextPromptOptions.defaultValue := None;
     TextPromptOptions.allowEmpty := None |}.

(** What is outside the program changes how the input stream behaves:
    the terminal goes away, and from then on [setRawMode] throws.  The
    state of the stream is kept. *)
Definition unplugged {U : Type} (e : JsError) (s : ReadStream U) : ReadStream U :=
  {| isTTY := isTTY s;
     setRawMode := Some (fun _ => Some e);
     resumeThrows := resumeThrows s;
     pauseThrows := pauseThrows s;
     rawMode := rawMode s;
     flowing := flowing s;
     listeners := listeners s;
     lines := lines s |}.

(** The same, seen from the manager that refers to the stream. *)
Definition unplug {U : Type} (e : JsError) (m : InputManager U) : InputManager U :=
  match stdin m with
  | Some s => withStdin (Some (unplugged e s)) m
  | None => m
  end.

(** * Properties *)

(** ** Strings *)

Example trim_Bob : trim " Bob " = "Bob".
Proof. reflexivity. Qed.

Example trim_keeps_inner_space : trim (String "009" " a b  ") = "a b".
Proof. reflexivity. Qed.

Example lower_YeS : toLowerCase "YeS" = "yes".
Proof. reflexivity. Qed.

Example replace_without_match : replaceTrailingSpaces "ab" "" = "ab".
Proof. reflexivity. Qed.

Example replace_trailing_run : replaceTrailingSpaces "a b  " "" = "a b".
Proof. reflexivity. Qed.

Example replace_at_end : replaceTrailingSpacesOpt "Name  " ": " = "Name: ".
Proof. reflexivity. Qed.

Lemma allWhiteSpace_trimEnd (s : string) :
  allWhiteSpace s = false -> allWhiteSpace (trimEnd s) = false.
Proof.
  induction s as [| c t IH]; simpl; [discriminate |].
  intros H. rewrite H. simpl.
  destruct (isWhiteSpace c); simpl in *; [| reflexivity].
  destruct t as [| c' t']; [discriminate |].
  apply IH, H.
Qed.

(** What [trimEnd] returns does not end in white space: [/\s+$/] finds
    nothing in it. *)
Lemma replaceTrailingSpaces_trimEnd (s r : string) :
  replaceTrailingSpaces (trimEnd s) r = trimEnd s.
Proof.
  induction s as [| c t IH]; [reflexivity |].
  change (trimEnd (String c t))
    with (if allWhiteSpace (String c t) then EmptyString else String c (trimEnd t)).
  destruct (allWhiteSpace (String c t)) eqn:E; [reflexivity |].
  change (replaceTrailingSpaces (String c (trimEnd t)) r)
    with (if allWhiteSpace (String c (trimEnd t)) then r
          else String c (replaceTrailingSpaces (trimEnd t) r)).
  assert (allWhiteSpace (String c (trimEnd t)) = false) as ->.
  { simpl in *. destruct (isWhiteSpace c); simpl in *; [| reflexivity].
    destruct t as [| c' t']; [discriminate |].
    apply allWhiteSpace_trimEnd, E. }
  now rewrite IH.
Qed.

(** [/\s*$/] matches the empty string at the end of it. *)
Lemma replaceTrailingSpacesOpt_trimEnd (s r : string) :
  replaceTrailingSpacesOpt (trimEnd s) r = (trimEnd s ++ r)%string.
Proof.
  induction s as [| c t IH]; [reflexivity |].
  change (trimEnd (String c t))
    with (if allWhiteSpace (String c t) then EmptyString else String c (trimEnd t)).
  destruct (allWhiteSpace (String c t)) eqn:E; [reflexivity |].
  change (replaceTrailingSpacesOpt (String c (trimEnd t)) r)
    with (if allWhiteSpace (String c (trimEnd t)) then r
          else String c (replaceTrailingSpacesOpt (trimEnd t) r)).
  assert (allWhiteSpace (String c (trimEnd t)) = false) as ->.
  { simpl in *. destruct (isWhiteSpace c); simpl in *; [| reflexivity].
    destruct t as [| c' t']; [discriminate |].
    apply allWhiteSpace_trimEnd, E. }
  now rewrite IH.
Qed.

Lemma yesNoPromptText_trim (question : string) :
  yesNoPromptText question = (trim question ++ " (y/n): ")%string.
Proof.
  unfold yesNoPromptText, trim. now rewrite replaceTrailingSpaces_trimEnd.
Qed.

Lemma textPromptText_trim (question : string) :
  textPromptText question = (trim question ++ ": ")%string.
Proof.
  unfold textPromptText, trim. apply replaceTrailingSpacesOpt_trimEnd.
Qed.

Lemma length_zero_empty (s : string) :
  Nat.eqb (String.length s) 0 = true <-> s = "".
Proof.
  destruct s; simpl; split; intros H; try reflexivity; discriminate.
Qed.

(** ** Prompts without a terminal *)

Section Properties.

Context {U : Type}.

Implicit Types (m : InputManager U) (h : Handler U).

(** A configuration is interactive exactly when the input handle reports
    a terminal and an output handle is configured. *)
Lemma isInteractive_false m :
  isInteractive m = false <-> stdinIsTTY m = false \/ stdout m = None.
Proof.
  unfold isInteractive. destruct (stdinIsTTY m), (stdout m); simpl; split;
    intros H; try reflexivity; try discriminate; auto;
    destruct H; discriminate.
Qed.

(** C1, as amended.  Without a terminal and without a default value both
    prompts throw an [Error] and leave everything as it was.  The
    messages are those of the claim followed by a full stop. *)
Theorem prompts_throw_without_terminal_and_default
  m (question : string) (allow : option bool) :
  stdinIsTTY m = false \/ stdout m = None ->
  promptYesNo question {| YesNoPromptOptions.defaultValue := None |} m
    = (Threw (Error "TTY input is not available for yes/no prompt."), m)
  /\ promptText question
       {| TextPromptOptions.defaultValue := None; TextPromptOptions.allowEmpty := allow |} m
    = (Threw (Error "TTY input is not available for text prompt."), m).
Proof.
  intros H. apply isInteractive_false in H.
  unfold promptYesNo, promptText, bind, gets. rewrite H. simpl.
  split; reflexivity.
Qed.

(** C2.  Without a terminal, a supplied default value is returned and
    nothing changes: in particular nothing is written to the output
    handle. *)
Theorem prompts_return_default_without_terminal
  m (question : string) (d : bool) (ds : string) (allow : option bool) :
  stdinIsTTY m = false \/ stdout m = None ->
  (promptYesNo question {| YesNoPromptOptions.defaultValue := Some d |} m
     = (Returned d, m)
   /\ output (snd (promptYesNo question
                     {| YesNoPromptOptions.defaultValue := Some d |} m)) = output m)
  /\ (promptText question
        {| TextPromptOptions.defaultValue := Some ds; TextPromptOptions.allowEmpty := allow |} m
      = (Returned ds, m)
      /\ output (snd (promptText question
                        {| TextPromptOptions.defaultValue := Some ds;
                           TextPromptOptions.allowEmpty := allow |} m)) = output m).
Proof.
  intros H. apply isInteractive_false in H.
  unfold promptYesNo, promptText, bind, gets. rewrite H. simpl.
  repeat split; reflexivity.
Qed.


(** ** The prompt loops *)

Lemma yesNoLoop_step (p : string) (o : YesNoPromptOptions.t)
  (answer : string) (rest : list string) m :
  yesNoLoop p o (answer :: rest) m =
  match yesNoAnswer o answer with
  | Some b => (Returned b, answered p m)
  | None => yesNoLoop p o rest (retried p "Please answer with y or n." m)
  end.
Proof.
  unfold yesNoAnswer. cbn [yesNoLoop]. cbv zeta.
  unfold bind at 1 2. unfold display, takeLine, modify. 
  destruct (strictEq (toLowerCase (trim answer)) "");
    destruct (YesNoPromptOptions.defaultValue o);
    try reflexivity;
    destruct (strictEq (toLowerCase (trim answer)) "y"
              || strictEq (toLowerCase (trim answer)) "yes");
    try reflexivity;
    destruct (strictEq (toLowerCase (trim answer)) "n"
              || strictEq (toLowerCase (trim answer)) "no");
    reflexivity.
Qed.

Lemma yesNoLoop_end (p : string) (o : YesNoPromptOptions.t) m :
  yesNoLoop p o [] m = (Pending, displayed p m).
Proof. reflexivity. Qed.

Lemma textLoop_step (p : string) (o : TextPromptOptions.t)
  (answer : string) (rest : list string) m :
  textLoop p o (answer :: rest) m =
  match textAnswer o answer with
  | Some t => (Returned t, answered p m)
  | None => textLoop p o rest (retried p "Input cannot be empty." m)
  end.
Proof.
  unfold textAnswer. cbn [textLoop]. cbv zeta.
  unfold bind at 1 2. unfold display, takeLine, modify.
  destruct (Nat.eqb (String.length (trim answer)) 0); [| reflexivity].
  destruct (TextPromptOptions.defaultValue o); [reflexivity |].
  destruct (truthy (TextPromptOptions.allowEmpty o)); reflexivity.
Qed.

Lemma textLoop_end (p : string) (o : TextPromptOptions.t) m :
  textLoop p o [] m = (Pending, displayed p m).
Proof. reflexivity. Qed.

Lemma output_displayed m (p : string) :
  stdout m <> None -> output (displayed p m) = output m ++ [p].
Proof.
  unfold displayed, output. destruct (stdout m); [reflexivity | congruence].
Qed.

Lemma stdout_displayed m (p : string) :
  stdout m <> None -> stdout (displayed p m) <> None.
Proof.
  unfold displayed. destruct (stdout m); simpl; congruence.
Qed.

Lemma stdout_lineTaken m : stdout (lineTaken m) = stdout m.
Proof. unfold lineTaken. now destruct (stdin m). Qed.

Lemma stdout_warned m (args : list LogValue) : stdout (warned args m) = stdout m.
Proof. unfold warned. destruct (logger m) as [lg |]; [destruct (warn lg) |]; reflexivity. Qed.

Lemma output_answered m (p : string) :
  stdout m <> None -> output (answered p m) = output m ++ [p].
Proof.
  intros H. unfold answered, output. rewrite stdout_lineTaken.
  now apply output_displayed.
Qed.

Lemma output_retried m (p warning : string) :
  stdout m <> None ->
  output (retried p warning m) = output m ++ [p]
  /\ stdout (retried p warning m) <> None.
Proof.
  intros H. unfold retried, output.
  rewrite stdout_warned, stdout_lineTaken.
  split; [now apply output_displayed | now apply stdout_displayed].
Qed.

Lemma repeat_snoc {A : Type} (x : A) (n : nat) :
  [x] ++ repeat x n = repeat x (S n).
Proof. reflexivity. Qed.

(** Every iteration writes the prompt once, and nothing else is written. *)
Lemma yesNoLoop_output (p : string) (o : YesNoPromptOptions.t) (input : list string) :
  forall m, stdout m <> None ->
  exists n, 0 < n /\
    output (snd (yesNoLoop p o input m)) = output m ++ repeat p n.
Proof.
  induction input as [| answer rest IH]; intros m Hw.
  - exists 1. split; [lia |]. rewrite yesNoLoop_end. now apply output_displayed.
  - rewrite yesNoLoop_step. destruct (yesNoAnswer o answer).
    + exists 1. split; [lia |]. now apply output_answered.
    + destruct (output_retried m p "Please answer with y or n." Hw) as [Ho Hs].
      destruct (IH _ Hs) as [n [Hn E]].
      exists (S n). split; [lia |].
      rewrite E, Ho, <- app_assoc. reflexivity.
Qed.

Lemma textLoop_output (p : string) (o : TextPromptOptions.t) (input : list string) :
  forall m, stdout m <> None ->
  exists n, 0 < n /\
    output (snd (textLoop p o input m)) = output m ++ repeat p n.
Proof.
  induction input as [| answer rest IH]; intros m Hw.
  - exists 1. split; [lia |]. rewrite textLoop_end. now apply output_displayed.
  - rewrite textLoop_step. destruct (textAnswer o answer).
    + exists 1. split; [lia |]. now apply output_answered.
    + destruct (output_retried m p "Input cannot be empty." Hw) as [Ho Hs].
      destruct (IH _ Hs) as [n [Hn E]].
      exists (S n). split; [lia |].
      rewrite E, Ho, <- app_assoc. reflexivity.
Qed.

Lemma isInteractive_true m :
  isInteractive m = true ->
  exists s w, stdin m = Some s /\ isTTY s = true /\ stdout m = Some w.
Proof.
  unfold isInteractive, stdinIsTTY.
  destruct (stdin m) as [s |]; [| discriminate].
  destruct (isTTY s) eqn:E; [| discriminate].
  destruct (stdout m) as [w |]; [| discriminate].
  intros _. now exists s, w.
Qed.

(** With a terminal a prompt opens a line reader, runs its loop on the
    lines to come and closes the reader when the loop is left. *)
Lemma promptYesNo_interactive m (s : ReadStream U) (question : string)
  (o : YesNoPromptOptions.t) :
  isInteractive m = true -> stdin m = Some s ->
  promptYesNo question o m
  = tryFinally (yesNoLoop (yesNoPromptText question) o (lines s)) rlClose (opened m).
Proof.
  intros Hi Hs. destruct (isInteractive_true m Hi) as [s' [w [Hs' [_ Hw]]]].
  unfold promptYesNo, bind, gets. rewrite Hi. cbn. rewrite Hs, Hw. reflexivity.
Qed.

Lemma promptText_interactive m (s : ReadStream U) (question : string)
  (o : TextPromptOptions.t) :
  isInteractive m = true -> stdin m = Some s ->
  promptText question o m
  = tryFinally (textLoop (textPromptText question) o (lines s)) rlClose (opened m).
Proof.
  intros Hi Hs. destruct (isInteractive_true m Hi) as [s' [w [Hs' [_ Hw]]]].
  unfold promptText, bind, gets. rewrite Hi. cbn. rewrite Hs, Hw. reflexivity.
Qed.

Lemma output_tryFinally_rlClose {A : Type} (body : M U A) m :
  output (snd (tryFinally body rlClose m)) = output (snd (body m)).
Proof.
  unfold tryFinally. destruct (body m) as [[a | e |] m']; reflexivity.
Qed.

(** C3, as amended.  With a terminal, every text that [promptYesNo]
    writes is the question without its leading and trailing white space
    followed by " (y/n): ", and every text that [promptText] writes is
    the question without its leading and trailing white space followed
    by ": ".  Each prompt is written at least once. *)
Theorem prompts_display_trimmed_question
  m (question : string) (yn : YesNoPromptOptions.t) (tx : TextPromptOptions.t) :
  isInteractive m = true ->
  (exists n, 0 < n /\
     output (snd (promptYesNo question yn m))
     = output m ++ repeat (trim question ++ " (y/n): ")%string n)
  /\ (exists n, 0 < n /\
        output (snd (promptText question tx m))
        = output m ++ repeat (trim question ++ ": ")%string n).
Proof.
  intros Hi. destruct (isInteractive_true m Hi) as [s [w [Hs [_ Hw]]]].
  assert (stdout (opened m) <> None) as Ho by (simpl; congruence).
  split.
  - rewrite (promptYesNo_interactive m s question yn Hi Hs).
    rewrite output_tryFinally_rlClose, <- yesNoPromptText_trim.
    exact (yesNoLoop_output _ yn (lines s) (opened m) Ho).
  - rewrite (promptText_interactive m s question tx Hi Hs).
    rewrite output_tryFinally_rlClose, <- textPromptText_trim.
    exact (textLoop_output _ tx (lines s) (opened m) Ho).
Qed.

(** ** Answers to [promptYesNo] *)

(** The few fields that an iteration touches are told apart by cases
    on the objects that may be absent: the two streams, the logger and
    its [warn] channel. *)
Ltac by_cases_on m :=
  let i := fresh "i" in
  let o := fresh "o" in
  let lg := fresh "lg" in
  destruct m as [i o lg ? ? ? ? ?];
  unfold retried, answered, warned, lineTaken, displayed, opened, closed,
    warns, output, isInteractive, stdinIsTTY;
  simpl;
  destruct o, i, lg as [[? [] ?] |]; simpl;
  rewrite ?app_nil_r; reflexivity.

Lemma opened_retried m (p warning : string) :
  opened (retried p warning m) = retried p warning (opened m).
Proof. by_cases_on m. Qed.

Lemma isInteractive_retried m (p warning : string) :
  isInteractive (retried p warning m) = isInteractive m.
Proof. by_cases_on m. Qed.

Lemma stdin_retried m (p warning : string) (s : ReadStream U) :
  stdin m = Some s ->
  stdin (retried p warning m) = Some (withLines (tl (lines s)) s).
Proof.
  intros H.
  assert (stdin (retried p warning m)
          = match stdin m with
            | Some s0 => Some (withLines (tl (lines s0)) s0)
            | None => None
            end) as -> by by_cases_on m.
  now rewrite H.
Qed.

Lemma logged_retried m (p warning : string) :
  logged (retried p warning m)
  = logged m ++ (if warns m then [Warned [LogString warning]] else []).
Proof. by_cases_on m. Qed.

Lemma warns_retried m (p warning : string) :
  warns (retried p warning m) = warns m.
Proof. by_cases_on m. Qed.

(** An iteration that returns hands nothing to the logger. *)
Lemma logged_answered m (p : string) :
  logged (closed (answered p (opened m))) = logged m.
Proof. by_cases_on m. Qed.

(** A line that makes the loop warn: the prompt goes on as if it had
    been called after that iteration. *)
Lemma promptYesNo_retry m (s : ReadStream U) (question answer : string)
  (rest : list string) (o : YesNoPromptOptions.t) :
  isInteractive m = true -> stdin m = Some s -> lines s = answer :: rest ->
  yesNoAnswer o answer = None ->
  promptYesNo question o m
  = promptYesNo question o
      (retried (yesNoPromptText question) "Please answer with y or n." m).
Proof.
  intros Hi Hs Hl Ha.
  rewrite (promptYesNo_interactive m s question o Hi Hs).
  rewrite (promptYesNo_interactive _ (withLines (tl (lines s)) s) question o).
  - rewrite opened_retried, Hl. unfold tryFinally.
    rewrite yesNoLoop_step, Ha. reflexivity.
  - now rewrite isInteractive_retried.
  - now apply stdin_retried.
Qed.

(** A line that makes the loop return. *)
Lemma promptYesNo_answer m (s : ReadStream U) (question answer : string)
  (rest : list string) (o : YesNoPromptOptions.t) (b : bool) :
  isInteractive m = true -> stdin m = Some s -> lines s = answer :: rest ->
  yesNoAnswer o answer = Some b ->
  promptYesNo question o m
  = (Returned b, closed (answered (yesNoPromptText question) (opened m))).
Proof.
  intros Hi Hs Hl Ha.
  rewrite (promptYesNo_interactive m s question o Hi Hs), Hl.
  unfold tryFinally. rewrite yesNoLoop_step, Ha. reflexivity.
Qed.

Lemma strictEq_eq (a b : string) : strictEq a b = true <-> a = b.
Proof. apply String.eqb_eq. Qed.

Lemma strictEq_neq (a b : string) : strictEq a b = false <-> a <> b.
Proof. apply String.eqb_neq. Qed.

Lemma yesNoAnswer_yes (o : YesNoPromptOptions.t) (answer : string) :
  toLowerCase (trim answer) = "y" \/ toLowerCase (trim answer) = "yes" ->
  yesNoAnswer o answer = Some true.
Proof.
  unfold yesNoAnswer. intros [-> | ->]; reflexivity.
Qed.

Lemma yesNoAnswer_no (o : YesNoPromptOptions.t) (answer : string) :
  toLowerCase (trim answer) = "n" \/ toLowerCase (trim answer) = "no" ->
  yesNoAnswer o answer = Some false.
Proof.
  unfold yesNoAnswer. intros [-> | ->]; reflexivity.
Qed.

Lemma yesNoAnswer_other (o : YesNoPromptOptions.t) (answer : string) :
  let normalized := toLowerCase (trim answer) in
  normalized <> "y" -> normalized <> "yes" ->
  normalized <> "n" -> normalized <> "no" ->
  normalized <> "" \/ YesNoPromptOptions.defaultValue o = None ->
  yesNoAnswer o answer = None.
Proof.
  cbv zeta. intros Hy Hyes Hn Hno Hd. unfold yesNoAnswer.
  apply strictEq_neq in Hy, Hyes, Hn, Hno. rewrite Hy, Hyes, Hn, Hno.
  destruct Hd as [He | ->].
  - apply strictEq_neq in He. now rewrite He.
  - now destruct (strictEq _ "").
Qed.

(** C4.  With a terminal that delivers the lines "", "maybe" and "y" and
    without a default value, [promptYesNo] goes twice through the
    iteration that warns "Please answer with y or n." and then returns
    [true]: a logger with a [warn] channel receives exactly these two
    warnings.  In general a line is trimmed and lowercased: "y" and
    "yes" return [true], "n" and "no" return [false], and any other line
    (the empty line too, where no default value takes it) warns and
    starts another iteration. *)
Theorem promptYesNo_answers
  m (s : ReadStream U) (question : string) (o : YesNoPromptOptions.t) :
  let p := yesNoPromptText question in
  let w := "Please answer with y or n." in
  isInteractive m = true -> stdin m = Some s ->
  (lines s = [""; "maybe"; "y"] -> YesNoPromptOptions.defaultValue o = None ->
   promptYesNo question o m
   = (Returned true, closed (answered p (retried p w (retried p w (opened m)))))
   /\ logged (snd (promptYesNo question o m))
      = logged m
        ++ (if warns m then [Warned [LogString w]; Warned [LogString w]] else []))
  /\ (forall (answer : string) (rest : list string),
      lines s = answer :: rest ->
      let normalized := toLowerCase (trim answer) in
      (normalized = "y" \/ normalized = "yes" ->
       fst (promptYesNo question o m) = Returned true
       /\ logged (snd (promptYesNo question o m)) = logged m)
      /\ (normalized = "n" \/ normalized = "no" ->
          fst (promptYesNo question o m) = Returned false
          /\ logged (snd (promptYesNo question o m)) = logged m)
      /\ (normalized <> "y" -> normalized <> "yes" ->
          normalized <> "n" -> normalized <> "no" ->
          normalized <> "" \/ YesNoPromptOptions.defaultValue o = None ->
          promptYesNo question o m = promptYesNo question o (retried p w m)
          /\ logged (retried p w m)
             = logged m ++ (if warns m then [Warned [LogString w]] else []))).
Proof.
  cbv zeta. intros Hi Hs. split.
  - intros Hl Hd.
    assert (promptYesNo question o m
            = (Returned true,
               closed (answered (yesNoPromptText question)
                 (retried (yesNoPromptText question) "Please answer with y or n."
                   (retried (yesNoPromptText question) "Please answer with y or n."
                     (opened m)))))) as E.
    { rewrite (promptYesNo_interactive m s question o Hi Hs), Hl.
      unfold tryFinally. rewrite !yesNoLoop_step.
      unfold yesNoAnswer. rewrite Hd. reflexivity. }
    split; [exact E |]. rewrite E. cbn [snd].
    rewrite <- !opened_retried, logged_answered, !logged_retried, warns_retried.
    rewrite <- app_assoc. now destruct (warns m).
  - intros answer rest Hl. split; [| split].
    + intros Hy.
      rewrite (promptYesNo_answer m s question answer rest o true Hi Hs Hl
                 (yesNoAnswer_yes o answer Hy)).
      split; [reflexivity | apply logged_answered].
    + intros Hn.
      rewrite (promptYesNo_answer m s question answer rest o false Hi Hs Hl
                 (yesNoAnswer_no o answer Hn)).
      split; [reflexivity | apply logged_answered].
    + intros Hy Hyes Hn Hno Hd. split; [| apply logged_retried].
      apply (promptYesNo_retry m s question answer rest o Hi Hs Hl).
      now apply yesNoAnswer_other.
Qed.

(** ** Empty input to [promptText] *)

Lemma promptText_retry m (s : ReadStream U) (question answer : string)
  (rest : list string) (o : TextPromptOptions.t) :
  isInteractive m = true -> stdin m = Some s -> lines s = answer :: rest ->
  textAnswer o answer = None ->
  promptText question o m
  = promptText question o
      (retried (textPromptText question) "Input cannot be empty." m).
Proof.
  intros Hi Hs Hl Ha.
  rewrite (promptText_interactive m s question o Hi Hs).
  rewrite (promptText_interactive _ (withLines (tl (lines s)) s) question o).
  - rewrite opened_retried, Hl. unfold tryFinally.
    rewrite textLoop_step, Ha. reflexivity.
  - now rewrite isInteractive_retried.
  - now apply stdin_retried.
Qed.

Lemma promptText_answer m (s : ReadStream U) (question answer : string)
  (rest : list string) (o : TextPromptOptions.t) (t : string) :
  isInteractive m = true -> stdin m = Some s -> lines s = answer :: rest ->
  textAnswer o answer = Some t ->
  promptText question o m
  = (Returned t, closed (answered (textPromptText question) (opened m))).
Proof.
  intros Hi Hs Hl Ha.
  rewrite (promptText_interactive m s question o Hi Hs), Hl.
  unfold tryFinally. rewrite textLoop_step, Ha. reflexivity.
Qed.

Lemma output_closed_answered_opened m (p : string) :
  stdout m <> None ->
  output (closed (answered p (opened m))) = output m ++ [p].
Proof.
  intros H. change (output (closed ?x)) with (output x).
  rewrite output_answered; [reflexivity | exact H].
Qed.

(** C5.  With a terminal, when the line that [promptText] reads trims to
    the empty string: a default value is returned, whatever [allowEmpty]
    is; without a default value and with [allowEmpty] the empty string
    is returned at once, after one prompt and without a warning;
    otherwise "Input cannot be empty." is handed to the logger and the
    loop goes on with the lines that follow. *)
Theorem promptText_empty_line
  m (s : ReadStream U) (question answer : string) (rest : list string)
  (o : TextPromptOptions.t) :
  let p := textPromptText question in
  let w := "Input cannot be empty." in
  isInteractive m = true -> stdin m = Some s -> lines s = answer :: rest ->
  trim answer = "" ->
  (forall d, TextPromptOptions.defaultValue o = Some d ->
     fst (promptText question o m) = Returned d
     /\ logged (snd (promptText question o m)) = logged m)
  /\ (TextPromptOptions.defaultValue o = None ->
      TextPromptOptions.allowEmpty o = Some true ->
      fst (promptText question o m) = Returned ""
      /\ logged (snd (promptText question o m)) = logged m
      /\ output (snd (promptText question o m)) = output m ++ [p])
  /\ (TextPromptOptions.defaultValue o = None ->
      TextPromptOptions.allowEmpty o <> Some true ->
      promptText question o m = promptText question o (retried p w m)
      /\ logged (retried p w m)
         = logged m ++ (if warns m then [Warned [LogString w]] else [])
      /\ output (retried p w m) = output m ++ [p]).
Proof.
  cbv zeta. intros Hi Hs Hl Ht.
  destruct (isInteractive_true m Hi) as [s' [wr [_ [_ Hw]]]].
  assert (stdout m <> None) as Hw' by congruence.
  split; [| split].
  - intros d Hd.
    assert (textAnswer o answer = Some d) as Ha
      by (unfold textAnswer; rewrite Ht, Hd; reflexivity).
    rewrite (promptText_answer m s question answer rest o d Hi Hs Hl Ha).
    split; [reflexivity | apply logged_answered].
  - intros Hd Hallow.
    assert (textAnswer o answer = Some "") as Ha
      by (unfold textAnswer; rewrite Ht, Hd, Hallow; reflexivity).
    rewrite (promptText_answer m s question answer rest o "" Hi Hs Hl Ha).
    split; [reflexivity | split].
    + apply logged_answered.
    + now apply output_closed_answered_opened.
  - intros Hd Hallow.
    assert (textAnswer o answer = None) as Ha.
    { unfold textAnswer. rewrite Ht, Hd. simpl.
      destruct (TextPromptOptions.allowEmpty o) as [[|] |]; try reflexivity.
      now elim Hallow. }
    split; [| split].
    + exact (promptText_retry m s question answer rest o Hi Hs Hl Ha).
    + apply logged_retried.
    + now apply output_retried.
Qed.

(** ** Raw mode *)

Lemma sameDevice_refl (s : ReadStream U) : sameDevice s s.
Proof. repeat split. Qed.

Lemma sameDevice_trans (s1 s2 s3 : ReadStream U) :
  sameDevice s1 s2 -> sameDevice s2 s3 -> sameDevice s1 s3.
Proof.
  unfold sameDevice. intros (? & ? & ? & ?) (? & ? & ? & ?).
  repeat split; congruence.
Qed.

Lemma rawModeAvailable_sameDevice (s s' : ReadStream U) :
  sameDevice s s' -> rawModeAvailable s' = rawModeAvailable s.
Proof.
  intros (_ & Hr & Hs & _).
  unfold rawModeAvailable, callSetRawMode, callResume.
  rewrite Hr. destruct (setRawMode s) as [f |]; [destruct (f true) |];
    simpl; rewrite ?Hs; try reflexivity; now destruct (resumeThrows s).
Qed.

(** A manager whose input is not a terminal refuses raw mode and is left
    as it was. *)
Lemma enableRawMode_refused m h :
  stdinIsTTY m = false -> enableRawMode h m = (Returned false, m).
Proof.
  intros H. unfold enableRawMode, bind, gets. now rewrite H.
Qed.

(** On a terminal where the switch goes through, a new listener that
    forwards to the handler is stored and registered last. *)
Lemma enableRawMode_attaches m (s : ReadStream U) h :
  stdin m = Some s -> isTTY s = true -> rawModeAvailable s = true ->
  let l := {| closure := allocated m; handler := h |} in
  exists s',
    fst (enableRawMode h m) = Returned true
    /\ stdin (snd (enableRawMode h m)) = Some s'
    /\ sameDevice s s'
    /\ listeners s' = listeners s ++ [l]
    /\ rawInputHandler (snd (enableRawMode h m)) = Some l
    /\ rawModeEnabled (snd (enableRawMode h m)) = true
    /\ allocated (snd (enableRawMode h m)) = S (allocated m).
Proof.
  destruct m as [i o lg r e lgd a n]. simpl. intros -> Ht Ha.
  destruct s as [tty srm rt pt rm fl ls lns]. simpl in Ht. subst tty.
  unfold rawModeAvailable, callSetRawMode, callResume in Ha. simpl in Ha.
  unfold enableRawMode, bind, gets, tryCatch, onStdin, modify, ret,
    newListener, callSetRawMode, callResume, stdinIsTTY. simpl.
  destruct srm as [f |]; [destruct (f true) |]; destruct rt;
    try discriminate; simpl.
  all: eexists; repeat split.
Qed.

(** On a terminal where the switch throws, the error is logged and
    nothing is stored or registered. *)
Lemma enableRawMode_fails m (s : ReadStream U) h :
  stdin m = Some s -> isTTY s = true -> rawModeAvailable s = false ->
  exists s',
    fst (enableRawMode h m) = Returned false
    /\ stdin (snd (enableRawMode h m)) = Some s'
    /\ sameDevice s s'
    /\ listeners s' = listeners s
    /\ rawInputHandler (snd (enableRawMode h m)) = rawInputHandler m
    /\ rawModeEnabled (snd (enableRawMode h m)) = rawModeEnabled m
    /\ allocated (snd (enableRawMode h m)) = allocated m.
Proof.
  destruct m as [i o lg r e lgd a n]. simpl. intros -> Ht Ha.
  destruct s as [tty srm rt pt rm fl ls lns]. simpl in Ht. subst tty.
  unfold rawModeAvailable, callSetRawMode, callResume in Ha. simpl in Ha.
  unfold enableRawMode, bind, gets, tryCatch, onStdin, modify, ret,
    newListener, callSetRawMode, callResume, stdinIsTTY, logError, errored.
  simpl.
  destruct srm as [f |]; [destruct (f true) |]; destruct rt;
    try discriminate; simpl;
    destruct lg as [[? ? []] |]; simpl;
    eexists; repeat split.
Qed.

(** [disableRawMode] returns, unregisters the stored listener and
    clears both fields. *)
Lemma disableRawMode_detaches m (s : ReadStream U) :
  stdin m = Some s ->
  exists s',
    fst (disableRawMode m) = Returned tt
    /\ stdin (snd (disableRawMode m)) = Some s'
    /\ sameDevice s s'
    /\ listeners s'
       = match rawInputHandler m with
         | Some l => removeLast (closure l) (listeners s)
         | None => listeners s
         end
    /\ rawInputHandler (snd (disableRawMode m)) = None
    /\ rawModeEnabled (snd (disableRawMode m)) = false
    /\ allocated (snd (disableRawMode m)) = allocated m.
Proof.
  destruct m as [i o lg r e lgd a n]. simpl. intros ->.
  destruct s as [tty srm rt pt rm fl ls lns].
  unfold disableRawMode, bind, gets, tryCatch, onStdin, modify, ret,
    callSetRawMode, callPause, logWarn, warned, off.
  simpl.
  destruct r as [l |]; simpl; destruct e; simpl;
    try (eexists; repeat split; fail);
    (destruct srm as [f |]; [destruct (f false) |]); destruct pt; simpl;
    try (destruct lg as [[? [] ?] |]; simpl);
    eexists; repeat split.
Qed.

Lemma enableRawMode_true m h :
  fst (enableRawMode h m) = Returned true ->
  exists s, stdin m = Some s /\ isTTY s = true /\ rawModeAvailable s = true.
Proof.
  intros H. destruct (stdinIsTTY m) eqn:Et.
  - unfold stdinIsTTY in Et. destruct (stdin m) as [s |] eqn:Es; [| discriminate].
    exists s. repeat split; [exact Et |].
    destruct (rawModeAvailable s) eqn:Ea; [reflexivity |].
    destruct (enableRawMode_fails m s h Es Et Ea) as (s' & Hf & _).
    congruence.
  - rewrite (enableRawMode_refused m h Et) in H. discriminate.
Qed.

(** A chunk reaches the listeners registered before, then the new one. *)
Lemma deliver_after_enableRawMode m h (data : Buffer) (u : U) :
  fst (enableRawMode h m) = Returned true ->
  deliver data (snd (enableRawMode h m)) u
  = h (toString data) (deliver data m u).
Proof.
  intros H. destruct (enableRawMode_true m h H) as (s & Hs & Ht & Ha).
  destruct (enableRawMode_attaches m s h Hs Ht Ha) as (s' & _ & Hs' & _ & Hl & _).
  unfold deliver, emit. rewrite Hs', Hs, Hl, fold_left_app. reflexivity.
Qed.

Lemma removeLast_only (l : Listener U) : removeLast (closure l) [l] = [].
Proof. simpl. now rewrite Nat.eqb_refl. Qed.

(** The last occurrence of the identity of the listener registered last
    is that listener. *)
Lemma removeLast_last (ls : list (Listener U)) (l : Listener U) :
  removeLast (closure l) (ls ++ [l]) = ls.
Proof.
  induction ls as [| x ls IH]; simpl.
  - now rewrite Nat.eqb_refl.
  - rewrite existsb_app. simpl. rewrite Nat.eqb_refl. simpl.
    rewrite orb_true_r. now rewrite IH.
Qed.

(** C6.  On a configuration whose input handle is not a terminal,
    [enableRawMode] returns [false] and changes nothing, so that no
    listener is registered; [disableRawMode] after it returns without
    throwing and changes nothing either. *)
Theorem raw_mode_refused_without_terminal
  (process : Process U) (options : InputManagerOptions U) h :
  let m := newInputManager process options in
  stdinIsTTY m = false ->
  enableRawMode h m = (Returned false, m)
  /\ dataListeners (snd (enableRawMode h m)) = dataListeners m
  /\ disableRawMode (snd (enableRawMode h m)) = (Returned tt, m).
Proof.
  cbv zeta. intros H. rewrite (enableRawMode_refused _ h H).
  repeat split.
  unfold disableRawMode, bind, gets, ret. simpl.
  now destruct (nullish (optStdin options) (defaultStdin process)).
Qed.

(** C7, as amended.  On a terminal with no listener and a manager with
    no handler, after [enableRawMode(h)], [disableRawMode()] and
    [enableRawMode(h2)]: where the switch to raw mode goes through, the
    last call returns [true], one listener is registered, which forwards
    to [h2], and a chunk goes to [h2] alone; where the switch throws, the
    last call returns [false], no listener is registered and a chunk
    goes to no handler.  [h] is not called in either case. *)
Theorem raw_mode_round_trip m (s : ReadStream U) h h2 :
  stdin m = Some s -> isTTY s = true ->
  listeners s = [] -> rawInputHandler m = None ->
  let m1 := snd (enableRawMode h m) in
  let m2 := snd (disableRawMode m1) in
  let m3 := snd (enableRawMode h2 m2) in
  (rawModeAvailable s = true ->
   fst (enableRawMode h2 m2) = Returned true
   /\ (exists l, dataListeners m3 = [l] /\ handler l = h2
                 /\ rawInputHandler m3 = Some l)
   /\ forall (data : Buffer) (u : U), deliver data m3 u = h2 (toString data) u)
  /\ (rawModeAvailable s = false ->
      fst (enableRawMode h2 m2) = Returned false
      /\ dataListeners m3 = []
      /\ forall (data : Buffer) (u : U), deliver data m3 u = u).
Proof.
  cbv zeta. intros Hs Ht Hl Hr. split; intros Ha.
  - destruct (enableRawMode_attaches m s h Hs Ht Ha)
      as (s1 & _ & Hs1 & Hd1 & Hl1 & Hr1 & _).
    destruct (disableRawMode_detaches _ s1 Hs1)
      as (s2 & _ & Hs2 & Hd2 & Hl2 & Hr2 & _).
    rewrite Hr1, Hl1, Hl in Hl2. simpl app in Hl2.
    rewrite removeLast_only in Hl2.
    pose proof (sameDevice_trans _ _ _ Hd1 Hd2) as Hd.
    assert (isTTY s2 = true) as Ht2 by (destruct Hd as (-> & _); exact Ht).
    assert (rawModeAvailable s2 = true) as Ha2
      by (rewrite (rawModeAvailable_sameDevice _ _ Hd); exact Ha).
    destruct (enableRawMode_attaches _ s2 h2 Hs2 Ht2 Ha2)
      as (s3 & Hf3 & Hs3 & _ & Hl3 & Hr3 & _).
    rewrite Hl2 in Hl3. simpl in Hl3.
    split; [exact Hf3 | split].
    + eexists. unfold dataListeners. rewrite Hs3, Hl3, Hr3. repeat split.
    + intros data u. unfold deliver, emit. rewrite Hs3, Hl3. reflexivity.
  - destruct (enableRawMode_fails m s h Hs Ht Ha)
      as (s1 & _ & Hs1 & Hd1 & Hl1 & Hr1 & _).
    destruct (disableRawMode_detaches _ s1 Hs1)
      as (s2 & _ & Hs2 & Hd2 & Hl2 & Hr2 & _).
    rewrite Hr1, Hr, Hl1, Hl in Hl2.
    pose proof (sameDevice_trans _ _ _ Hd1 Hd2) as Hd.
    assert (isTTY s2 = true) as Ht2 by (destruct Hd as (-> & _); exact Ht).
    assert (rawModeAvailable s2 = false) as Ha2
      by (rewrite (rawModeAvailable_sameDevice _ _ Hd); exact Ha).
    destruct (enableRawMode_fails _ s2 h2 Hs2 Ht2 Ha2)
      as (s3 & Hf3 & Hs3 & _ & Hl3 & _).
    rewrite Hl2 in Hl3.
    split; [exact Hf3 | split].
    + unfold dataListeners. now rewrite Hs3.
    + intros data u. unfold deliver, emit. now rewrite Hs3, Hl3.
Qed.

(** C8, as amended.  A second [enableRawMode] while the listener of a
    first one is stored and registered: where the switch to raw mode
    goes through on that call, it returns [true], stores a new listener
    in place of the first one and leaves the first one registered, so
    that a chunk goes to the old handler and then to the new one;
    [disableRawMode] after it unregisters the listener stored last and
    no other, and the manager no longer refers to the old one, which
    stays registered.  Where the switch throws on that call, it returns
    [false], the first listener stays the stored one and a chunk goes to
    the old handler alone. *)
Theorem second_enableRawMode_keeps_first_listener
  m (s : ReadStream U) (l1 : Listener U) h2 :
  stdin m = Some s -> isTTY s = true ->
  rawInputHandler m = Some l1 -> listeners s = [l1] ->
  let m2 := snd (enableRawMode h2 m) in
  let m3 := snd (disableRawMode m2) in
  (rawModeAvailable s = true ->
   fst (enableRawMode h2 m) = Returned true
   /\ (exists l2, rawInputHandler m2 = Some l2 /\ handler l2 = h2
                  /\ dataListeners m2 = [l1; l2])
   /\ (forall (data : Buffer) (u : U),
         deliver data m2 u
         = h2 (toString data) (handler l1 (toString data) u))
   /\ fst (disableRawMode m2) = Returned tt
   /\ dataListeners m3 = [l1]
   /\ rawInputHandler m3 = None
   /\ (forall (data : Buffer) (u : U),
         deliver data m3 u = handler l1 (toString data) u))
  /\ (rawModeAvailable s = false ->
      fst (enableRawMode h2 m) = Returned false
      /\ rawInputHandler m2 = Some l1
      /\ dataListeners m2 = [l1]
      /\ (forall (data : Buffer) (u : U),
            deliver data m2 u = handler l1 (toString data) u)).
Proof.
  cbv zeta. intros Hs Ht Hr Hl. split; intros Ha.
  - destruct (enableRawMode_attaches m s h2 Hs Ht Ha)
      as (s2 & Hf2 & Hs2 & _ & Hl2 & Hr2 & _).
    destruct (disableRawMode_detaches _ s2 Hs2)
      as (s3 & Hf3 & Hs3 & _ & Hl3 & Hr3 & _).
    rewrite Hr2, Hl2, removeLast_last in Hl3.
    rewrite Hl in Hl2, Hl3. simpl in Hl2.
    unfold dataListeners, deliver, emit.
    rewrite Hs2, Hs3, Hl2, Hl3, Hr2.
    split; [exact Hf2 | split].
    + eexists. repeat split.
    + split; [reflexivity |].
      split; [exact Hf3 | split; [reflexivity | split; [exact Hr3 |]]].
      reflexivity.
  - destruct (enableRawMode_fails m s h2 Hs Ht Ha)
      as (s2 & Hf2 & Hs2 & _ & Hl2 & Hr2 & _).
    unfold dataListeners, deliver, emit.
    rewrite Hs2, Hl2, Hl, Hr2, Hr.
    split; [exact Hf2 | repeat split].
Qed.

(** ** Manual controls *)

Lemma attachManualControls_true
  (c c' : GameInputController U) (handlers : ManualControlHandlers U) :
  attachManualControls handlers c = (Returned true, c') ->
  fst (enableRawMode (manualControls handlers) (inputManager c)) = Returned true
  /\ inputManager c'
     = snd (enableRawMode (manualControls handlers) (inputManager c)).
Proof.
  unfold attachManualControls.
  destruct (enableRawMode (manualControls handlers) (inputManager c)) as [r m'].
  intros H. inversion H. split; reflexivity.
Qed.

(** After a successful attachment a chunk reaches the listeners that
    were registered before and then the decoder of the controller. *)
Lemma deliver_after_attachManualControls
  (c c' : GameInputController U) (handlers : ManualControlHandlers U)
  (data : Buffer) (u : U) :
  attachManualControls handlers c = (Returned true, c') ->
  deliver data (inputManager c') u
  = manualControls handlers (toString data) (deliver data (inputManager c) u).
Proof.
  intros H. destruct (attachManualControls_true c c' handlers H) as [Hf ->].
  now apply deliver_after_enableRawMode.
Qed.

(** C9.  After [attachManualControls] has returned [true], a chunk whose
    text is the ESC character runs [onExit] once and [onAdvance] not at
    all; a chunk whose text is a carriage return or a line feed runs
    [onAdvance] once, drops what it returns, and does not run
    [onExit]. *)
Theorem manual_controls_exit_and_advance
  (c c' : GameInputController U) (handlers : ManualControlHandlers U)
  (data : Buffer) (u : U) :
  attachManualControls handlers c = (Returned true, c') ->
  let before := deliver data (inputManager c) u in
  (toString data = ESC ->
   deliver data (inputManager c') u = onExit handlers before)
  /\ (toString data = CR \/ toString data = LF ->
      deliver data (inputManager c') u = snd (onAdvance handlers before)).
Proof.
  cbv zeta. intros H.
  rewrite (deliver_after_attachManualControls c c' handlers data u H).
  unfold manualControls. split.
  - intros ->. reflexivity.
  - intros [-> | ->]; reflexivity.
Qed.

(** C10.  The decoder compares the whole text of a chunk: a chunk whose
    text is not exactly ESC, a carriage return or a line feed runs
    neither [onExit] nor [onAdvance].  A carriage return and a line feed
    in one chunk, and the escape sequence of an arrow key, are such
    chunks. *)
Theorem manual_controls_ignore_other_chunks
  (c c' : GameInputController U) (handlers : ManualControlHandlers U)
  (data : Buffer) (u : U) :
  attachManualControls handlers c = (Returned true, c') ->
  (toString data <> ESC -> toString data <> CR -> toString data <> LF ->
   deliver data (inputManager c') u = deliver data (inputManager c) u)
  /\ (toString data = (CR ++ LF)%string ->
      deliver data (inputManager c') u = deliver data (inputManager c) u)
  /\ (toString data = (ESC ++ "[A")%string ->
      deliver data (inputManager c') u = deliver data (inputManager c) u).
Proof.
  intros H.
  rewrite (deliver_after_attachManualControls c c' handlers data u H).
  unfold manualControls. split; [| split].
  - intros He Hc Hl. apply strictEq_neq in He, Hc, Hl.
    now rewrite He, Hc, Hl.
  - intros ->. reflexivity.
  - intros ->. reflexivity.
Qed.
End Properties.

(** ** Runs on sample configurations *)

Example promptText_Bob :
  fst (promptText "Name"
         {| TextPromptOptions.defaultValue := None;
            TextPromptOptions.allowEmpty := None |}
         (managerOn (@terminal Calls [" Bob "])))
  = Returned "Bob".
Proof. reflexivity. Qed.

Example promptYesNo_awaits_a_line :
  fst (promptYesNo "Continue?" noDefault (managerOn (@terminal Calls ["maybe"])))
  = Pending.
Proof. reflexivity. Qed.

Example promptYesNo_closes_the_reader :
  openInterfaces
    (snd (promptYesNo "Continue?" noDefault (managerOn (@terminal Calls ["YES "]))))
  = 0.
Proof. reflexivity. Qed.

(** C1 as stated fails: the messages thrown are not the ones it quotes. *)
Lemma messages_end_with_full_stop :
  fst (promptYesNo "Continue?" noDefault (managerOn (@pipe Calls)))
    <> Threw (Error "TTY input is not available for yes/no prompt")
  /\ fst (promptText "Name"
            {| TextPromptOptions.defaultValue := None; TextPromptOptions.allowEmpty := None |}
            (managerOn (@pipe Calls)))
    <> Threw (Error "TTY input is not available for text prompt").
Proof. split; vm_compute; discriminate. Qed.

Lemma prompts_throw_without_terminal_and_default_witness :
  (stdinIsTTY (managerOn (@pipe Calls)) = false
   \/ stdout (managerOn (@pipe Calls)) = None)
  /\ promptYesNo "Continue?" noDefault (managerOn (@pipe Calls))
     = (Threw (Error "TTY input is not available for yes/no prompt."),
        managerOn pipe).
Proof.
  split; [left; reflexivity |].
  exact (proj1 (prompts_throw_without_terminal_and_default
                  (managerOn (@pipe Calls)) "Continue?" None
                  (or_introl eq_refl))).
Defined.

Lemma prompts_return_default_without_terminal_witness :
  (stdinIsTTY (managerOn (@pipe Calls)) = false
   \/ stdout (managerOn (@pipe Calls)) = None)
  /\ promptYesNo "Generate a map?"
       {| YesNoPromptOptions.defaultValue := Some false |} (managerOn (@pipe Calls))
     = (Returned false, managerOn pipe).
Proof.
  split; [left; reflexivity |].
  exact (proj1 (proj1 (prompts_return_default_without_terminal
                  (managerOn (@pipe Calls)) "Generate a map?" false "" None
                  (or_introl eq_refl)))).
Defined.

(** C3 as stated fails: white space at the start of the question is
    removed from the prompt as well. *)
Lemma prompts_drop_leading_white_space :
  (output (snd (promptYesNo " ok?" noDefault (managerOn (@terminal Calls ["y"]))))
   = ["ok? (y/n): "]
   /\ output (snd (promptYesNo " ok?" noDefault (managerOn (@terminal Calls ["y"]))))
      <> [(trimEnd " ok?" ++ " (y/n): ")%string])
  /\ (output (snd (promptText " Name"
                     {| TextPromptOptions.defaultValue := None;
                        TextPromptOptions.allowEmpty := None |}
                     (managerOn (@terminal Calls ["Bob"]))))
      = ["Name: "]
      /\ output (snd (promptText " Name"
                        {| TextPromptOptions.defaultValue := None;
                           TextPromptOptions.allowEmpty := None |}
                        (managerOn (@terminal Calls ["Bob"]))))
         <> [replaceTrailingSpacesOpt " Name" ": "]).
Proof. repeat split; vm_compute; discriminate. Qed.

Lemma prompts_display_trimmed_question_witness :
  isInteractive (managerOn (@terminal Calls ["y"])) = true
  /\ (exists n, 0 < n /\
        output (snd (promptYesNo "  Continue?  " noDefault
                       (managerOn (@terminal Calls ["y"]))))
        = output (managerOn (@terminal Calls ["y"]))
          ++ repeat (trim "  Continue?  " ++ " (y/n): ")%string n).
Proof.
  split; [reflexivity |].
  exact (proj1 (prompts_display_trimmed_question
                  (managerOn (@terminal Calls ["y"])) "  Continue?  " noDefault
                  {| TextPromptOptions.defaultValue := None;
                     TextPromptOptions.allowEmpty := None |}
                  eq_refl)).
Defined.

Lemma promptYesNo_answers_witness :
  (isInteractive (managerOn (@terminal Calls [""; "maybe"; "y"])) = true
   /\ stdin (managerOn (@terminal Calls [""; "maybe"; "y"]))
      = Some (terminal [""; "maybe"; "y"]))
  /\ fst (promptYesNo "Continue?" noDefault
            (managerOn (@terminal Calls [""; "maybe"; "y"])))
     = Returned true
  /\ logged (snd (promptYesNo "Continue?" noDefault
                    (managerOn (@terminal Calls [""; "maybe"; "y"]))))
     = [Warned [LogString "Please answer with y or n."];
        Warned [LogString "Please answer with y or n."]].
Proof.
  split; [split; reflexivity |].
  destruct (proj1 (promptYesNo_answers
                     (managerOn (@terminal Calls [""; "maybe"; "y"]))
                     (terminal [""; "maybe"; "y"]) "Continue?" noDefault
                     eq_refl eq_refl) eq_refl eq_refl) as [E L].
  split; [rewrite E; reflexivity | exact L].
Defined.

Lemma promptText_empty_line_witness :
  (isInteractive (managerOn (@terminal Calls [""])) = true
   /\ trim "" = "")
  /\ fst (promptText "Name"
            {| TextPromptOptions.defaultValue := None;
               TextPromptOptions.allowEmpty := Some true |}
            (managerOn (@terminal Calls [""])))
     = Returned ""
  /\ logged (snd (promptText "Name"
                    {| TextPromptOptions.defaultValue := None;
                       TextPromptOptions.allowEmpty := Some true |}
                    (managerOn (@terminal Calls [""]))))
     = [].
Proof.
  split; [split; reflexivity |].
  destruct (proj1 (proj2 (promptText_empty_line
                     (managerOn (@terminal Calls [""])) (terminal [""])
                     "Name" "" []
                     {| TextPromptOptions.defaultValue := None;
                        TextPromptOptions.allowEmpty := Some true |}
                     eq_refl eq_refl eq_refl eq_refl)) eq_refl eq_refl)
    as (R & L & _).
  split; [exact R | exact L].
Defined.

Lemma raw_mode_refused_without_terminal_witness :
  stdinIsTTY (managerOn (@pipe Calls)) = false
  /\ enableRawMode (recording "h") (managerOn pipe)
     = (Returned false, managerOn pipe)
  /\ disableRawMode (snd (enableRawMode (recording "h") (managerOn pipe)))
     = (Returned tt, managerOn pipe).
Proof.
  split; [reflexivity |].
  destruct (raw_mode_refused_without_terminal nodeProcess
              {| optStdin := Some pipe; optStdout := Some blankOutput;
                 optLogger := Some fullLogger |}
              (recording "h") eq_refl) as (E & _ & D).
  split; [exact E | exact D].
Defined.

(** C7 as stated fails: on a terminal whose [setRawMode] throws, the
    three calls leave no listener, and a chunk does not reach [h2]. *)
Lemma round_trip_without_raw_mode :
  let m1 := snd (enableRawMode (recording "h") (managerOn cookedTerminal)) in
  let m2 := snd (disableRawMode m1) in
  let m3 := snd (enableRawMode (recording "h2") m2) in
  stdinIsTTY (managerOn (@cookedTerminal Calls)) = true
  /\ dataListeners m3 = []
  /\ length (dataListeners m3) <> 1
  /\ deliver (chunk "a") m3 [] <> recording "h2" "a" [].
Proof. cbv zeta. repeat split; vm_compute; discriminate. Qed.

Lemma raw_mode_round_trip_witness :
  let m := managerOn (@terminal Calls []) in
  let m1 := snd (enableRawMode (recording "h") m) in
  let m2 := snd (disableRawMode m1) in
  let m3 := snd (enableRawMode (recording "h2") m2) in
  (stdin m = Some (terminal []) /\ isTTY (@terminal Calls []) = true
   /\ listeners (@terminal Calls []) = [] /\ rawInputHandler m = None
   /\ rawModeAvailable (@terminal Calls []) = true)
  /\ fst (enableRawMode (recording "h2") m2) = Returned true
  /\ deliver (chunk "a") m3 [] = [("h2", "a")].
Proof.
  cbv zeta. split; [repeat split |].
  destruct (proj1 (raw_mode_round_trip (managerOn (@terminal Calls []))
                     (terminal []) (recording "h") (recording "h2")
                     eq_refl eq_refl eq_refl eq_refl) eq_refl)
    as (R & _ & D).
  split; [exact R | exact (D (chunk "a") [])].
Defined.

(** C8 as stated fails: a terminal that goes away after a first
    [enableRawMode] has attached makes the second call return [false];
    the stored listener is not replaced, and a chunk goes to the old
    handler alone. *)
Lemma second_enableRawMode_can_fail :
  let m1 := snd (enableRawMode (recording "h") (managerOn (@terminal Calls []))) in
  let m1' := unplug (Error "setRawMode EIO") m1 in
  let m2 := snd (enableRawMode (recording "h2") m1') in
  (fst (enableRawMode (recording "h") (managerOn (@terminal Calls [])))
   = Returned true
   /\ rawInputHandler m1'
      = Some {| closure := 0; handler := recording "h" |})
  /\ fst (enableRawMode (recording "h2") m1') = Returned false
  /\ rawInputHandler m2 = rawInputHandler m1'
  /\ length (dataListeners m2) = 1
  /\ deliver (chunk "a") m2 [] = [("h", "a")]
  /\ deliver (chunk "a") m2 [] <> recording "h2" "a" (recording "h" "a" []).
Proof. cbv zeta. repeat split; try reflexivity; vm_compute; discriminate. Qed.

Lemma second_enableRawMode_keeps_first_listener_witness :
  let m := snd (enableRawMode (recording "h") (managerOn (@terminal Calls []))) in
  let l1 := {| closure := 0; handler := recording "h" |} in
  let m2 := snd (enableRawMode (recording "h2") m) in
  let m3 := snd (disableRawMode m2) in
  (rawInputHandler m = Some l1 /\ dataListeners m = [l1]
   /\ stdinIsTTY m = true)
  /\ fst (enableRawMode (recording "h2") m) = Returned true
  /\ deliver (chunk "a") m2 [] = [("h", "a"); ("h2", "a")]
  /\ deliver (chunk "a") m3 [] = [("h", "a")].
Proof.
  cbv zeta. split; [repeat split |].
  destruct (proj1 (second_enableRawMode_keeps_first_listener
                     (snd (enableRawMode (recording "h")
                             (managerOn (@terminal Calls []))))
                     _ {| closure := 0; handler := recording "h" |}
                     (recording "h2")
                     eq_refl eq_refl eq_refl eq_refl) eq_refl)
    as (R & _ & D2 & _ & _ & _ & D3).
  split; [exact R | split; [exact (D2 (chunk "a") []) | exact (D3 (chunk "a") [])]].
Defined.

Lemma manual_controls_exit_and_advance_witness :
  let c := newGameInputController nodeProcess
             (Some (managerOn (@terminal (nat * nat) []))) in
  let c' := snd (attachManualControls counting c) in
  attachManualControls counting c = (Returned true, c')
  /\ deliver (chunk ESC) (inputManager c') (0, 0) = (1, 0)
  /\ deliver (chunk CR) (inputManager c') (0, 0) = (0, 1)
  /\ deliver (chunk LF) (inputManager c') (0, 0) = (0, 1).
Proof.
  cbv zeta. split; [reflexivity |].
  split; [| split].
  - exact (proj1 (manual_controls_exit_and_advance
             (newGameInputController nodeProcess
                (Some (managerOn (@terminal (nat * nat) []))))
             _ counting (chunk ESC) (0, 0) eq_refl) eq_refl).
  - exact (proj2 (manual_controls_exit_and_advance
             (newGameInputController nodeProcess
                (Some (managerOn (@terminal (nat * nat) []))))
             _ counting (chunk CR) (0, 0) eq_refl) (or_introl eq_refl)).
  - exact (proj2 (manual_controls_exit_and_advance
             (newGameInputController nodeProcess
                (Some (managerOn (@terminal (nat * nat) []))))
             _ counting (chunk LF) (0, 0) eq_refl) (or_intror eq_refl)).
Defined.

Lemma manual_controls_ignore_other_chunks_witness :
  let c := newGameInputController nodeProcess
             (Some (managerOn (@terminal (nat * nat) []))) in
  let c' := snd (attachManualControls counting c) in
  attachManualControls counting c = (Returned true, c')
  /\ deliver (chunk (CR ++ LF)%string) (inputManager c') (0, 0) = (0, 0)
  /\ deliver (chunk (ESC ++ "[A")%string) (inputManager c') (0, 0) = (0, 0)
  /\ deliver (chunk "y") (inputManager c') (0, 0) = (0, 0).
Proof.
  cbv zeta. split; [reflexivity |].
  split; [| split].
  - exact (proj1 (proj2 (manual_controls_ignore_other_chunks
             (newGameInputController nodeProcess
                (Some (managerOn (@terminal (nat * nat) []))))
             _ counting (chunk (CR ++ LF)%string) (0, 0) eq_refl)) eq_refl).
  - exact (proj2 (proj2 (manual_controls_ignore_other_chunks
             (newGameInputController nodeProcess
                (Some (managerOn (@terminal (nat * nat) []))))
             _ counting (chunk (ESC ++ "[A")%string) (0, 0) eq_refl)) eq_refl).
  - refine (proj1 (manual_controls_ignore_other_chunks
             (newGameInputController nodeProcess
                (Some (managerOn (@terminal (nat * nat) []))))
             _ counting (chunk "y") (0, 0) eq_refl) _ _ _);
      intros H; vm_compute in H; discriminate H.
Defined.

(** * Further properties *)

Section Further.

Context {U : Type}.

Implicit Types (m : InputManager U) (h : Handler U).

(** ** Prompt loops as a whole *)

(** Cases on the objects that may be absent, where an output handle is
    known to be there. *)
Ltac by_cases_with_output m H :=
  let i := fresh "i" in
  let o := fresh "o" in
  let lg := fresh "lg" in
  destruct m as [i o lg ? ? ? ? ?];
  simpl in H; destruct o; [| congruence];
  unfold retried, answered, warned, lineTaken, displayed, opened, closed,
    warns, warnings, output, pendingLines, dataListeners, isInteractive,
    stdinIsTTY;
  simpl;
  destruct i, lg as [[? [] ?] |]; simpl;
  repeat split; try discriminate; rewrite ?app_nil_r; reflexivity.

(** The loop of [promptYesNo] on any input: it returns on the first
    line that its body accepts, after one rejected iteration for each
    line before, and is suspended after the last line otherwise. *)
Lemma yesNoLoop_run (p : string) (o : YesNoPromptOptions.t) (input : list string) :
  forall m,
  yesNoLoop p o input m
  = match firstAnswer (yesNoAnswer o) input with
    | Some (k, b) =>
        (Returned b,
         answered p (Nat.iter k (retried p "Please answer with y or n.") m))
    | None =>
        (Pending,
         displayed p
           (Nat.iter (length input) (retried p "Please answer with y or n.") m))
    end.
Proof.
  induction input as [| answer rest IH]; intros m; [reflexivity |].
  rewrite yesNoLoop_step. cbn [firstAnswer length].
  destruct (yesNoAnswer o answer) as [b |]; [reflexivity |].
  rewrite IH.
  destruct (firstAnswer (yesNoAnswer o) rest) as [[k b] |];
    now rewrite <- Nat.iter_succ_r.
Qed.

Lemma textLoop_run (p : string) (o : TextPromptOptions.t) (input : list string) :
  forall m,
  textLoop p o input m
  = match firstAnswer (textAnswer o) input with
    | Some (k, t) =>
        (Returned t,
         answered p (Nat.iter k (retried p "Input cannot be empty.") m))
    | None =>
        (Pending,
         displayed p
           (Nat.iter (length input) (retried p "Input cannot be empty.") m))
    end.
Proof.
  induction input as [| answer rest IH]; intros m; [reflexivity |].
  rewrite textLoop_step. cbn [firstAnswer length].
  destruct (textAnswer o answer) as [t |]; [reflexivity |].
  rewrite IH.
  destruct (firstAnswer (textAnswer o) rest) as [[k t] |];
    now rewrite <- Nat.iter_succ_r.
Qed.

Lemma promptYesNo_run m (s : ReadStream U) (question : string)
  (o : YesNoPromptOptions.t) :
  let p := yesNoPromptText question in
  let w := "Please answer with y or n." in
  isInteractive m = true -> stdin m = Some s ->
  promptYesNo question o m
  = match firstAnswer (yesNoAnswer o) (lines s) with
    | Some (k, b) =>
        (Returned b, closed (answered p (Nat.iter k (retried p w) (opened m))))
    | None =>
        (Pending,
         displayed p (Nat.iter (length (lines s)) (retried p w) (opened m)))
    end.
Proof.
  cbv zeta. intros Hi Hs.
  rewrite (promptYesNo_interactive m s question o Hi Hs).
  unfold tryFinally. rewrite yesNoLoop_run.
  now destruct (firstAnswer (yesNoAnswer o) (lines s)) as [[k b] |].
Qed.

Lemma promptText_run m (s : ReadStream U) (question : string)
  (o : TextPromptOptions.t) :
  let p := textPromptText question in
  let w := "Input cannot be empty." in
  isInteractive m = true -> stdin m = Some s ->
  promptText question o m
  = match firstAnswer (textAnswer o) (lines s) with
    | Some (k, t) =>
        (Returned t, closed (answered p (Nat.iter k (retried p w) (opened m))))
    | None =>
        (Pending,
         displayed p (Nat.iter (length (lines s)) (retried p w) (opened m)))
    end.
Proof.
  cbv zeta. intros Hi Hs.
  rewrite (promptText_interactive m s question o Hi Hs).
  unfold tryFinally. rewrite textLoop_run.
  now destruct (firstAnswer (textAnswer o) (lines s)) as [[k t] |].
Qed.

Lemma firstAnswer_Some {A : Type} (decide : string -> option A)
  (input : list string) (k : nat) (a : A) :
  firstAnswer decide input = Some (k, a) <->
  exists before answer after,
    input = before ++ answer :: after
    /\ length before = k
    /\ Forall (fun l => decide l = None) before
    /\ decide answer = Some a.
Proof.
  revert k. induction input as [| l rest IH]; intros k; simpl.
  - split; [discriminate |]. intros (before & answer & after & H & _).
    destruct before; discriminate.
  - destruct (decide l) as [a' |] eqn:E.
    + split.
      * intros H. inversion H. subst. now exists [], l, rest.
      * intros (before & answer & after & H & Hk & Hb & Ha).
        destruct before as [| l' before]; simpl in *.
        -- inversion H. subst. congruence.
        -- inversion H. subst. inversion Hb. congruence.
    + destruct (firstAnswer decide rest) as [[k' a'] |].
      * split.
        -- intros H. inversion H. subst.
           destruct (proj1 (IH k') eq_refl)
             as (before & answer & after & H1 & H2 & H3 & H4).
           exists (l :: before), answer, after. subst. simpl.
           repeat split; auto.
        -- intros (before & answer & after & H & Hk & Hb & Ha).
           destruct before as [| l' before]; simpl in *.
           ++ inversion H. subst. congruence.
           ++ inversion H. subst. inversion Hb. subst.
              assert (Some (k', a') = Some (length before, a)) as Hx.
              { apply IH. now exists before, answer, after. }
              now inversion Hx.
      * split; [discriminate |].
        intros (before & answer & after & H & Hk & Hb & Ha).
        destruct before as [| l' before]; simpl in *.
        -- inversion H. subst. congruence.
        -- inversion H. subst. inversion Hb. subst.
           assert (None = Some (length before, a)) as Hx.
           { apply IH. now exists before, answer, after. }
           discriminate.
Qed.

Lemma firstAnswer_None {A : Type} (decide : string -> option A)
  (input : list string) :
  firstAnswer decide input = None <-> Forall (fun l => decide l = None) input.
Proof.
  induction input as [| l rest IH]; simpl.
  - split; auto.
  - destruct (decide l) eqn:E.
    + split; [discriminate |]. intros H. inversion H. congruence.
    + destruct (firstAnswer decide rest) as [[k a] |].
      * split; [discriminate |]. intros H. inversion H. subst.
        apply IH in H3. discriminate.
      * split; intros _; [constructor; [exact E | now apply IH] | reflexivity].
Qed.

(** What [k] rejected iterations leave behind. *)
Lemma promptState_retried m (p w : string) :
  stdout m <> None ->
  stdout (retried p w m) <> None
  /\ output (retried p w m) = output m ++ [p]
  /\ pendingLines (retried p w m) = tl (pendingLines m)
  /\ openInterfaces (retried p w m) = openInterfaces m
  /\ logged (retried p w m) = logged m ++ warnings m w 1
  /\ warns (retried p w m) = warns m.
Proof. intros H. by_cases_with_output m H. Qed.

Lemma promptState_iter_retried m (p w : string) (k : nat) :
  stdout m <> None ->
  stdout (Nat.iter k (retried p w) m) <> None
  /\ output (Nat.iter k (retried p w) m) = output m ++ repeat p k
  /\ pendingLines (Nat.iter k (retried p w) m) = skipn k (pendingLines m)
  /\ openInterfaces (Nat.iter k (retried p w) m) = openInterfaces m
  /\ logged (Nat.iter k (retried p w) m) = logged m ++ warnings m w k
  /\ warns (Nat.iter k (retried p w) m) = warns m.
Proof.
  intros H. induction k as [| k IH].
  - simpl. unfold warnings. rewrite !app_nil_r.
    repeat split; auto. destruct (warns m); simpl; now rewrite ?app_nil_r.
  - rewrite Nat.iter_succ.
    destruct IH as (H1 & H2 & H3 & H4 & H5 & H6).
    destruct (promptState_retried _ p w H1) as (G1 & G2 & G3 & G4 & G5 & G6).
    rewrite G2, G3, G4, G5, G6, H2, H3, H4, H5, H6.
    repeat split; auto.
    + rewrite <- app_assoc. f_equal.
      change [p] with (repeat p 1). rewrite <- repeat_app.
      f_equal. lia.
    + clear. generalize (pendingLines m). induction k; intros l.
      * destruct l; reflexivity.
      * destruct l; [reflexivity |]. simpl. apply IHk.
    + unfold warnings. rewrite H6. destruct (warns m).
      * rewrite <- app_assoc. f_equal. rewrite <- repeat_app. f_equal. lia.
      * now rewrite !app_nil_r.
Qed.

Lemma promptState_answered m (p : string) :
  stdout m <> None ->
  output (closed (answered p m)) = output m ++ [p]
  /\ pendingLines (closed (answered p m)) = tl (pendingLines m)
  /\ openInterfaces (closed (answered p m)) = Nat.pred (openInterfaces m)
  /\ logged (closed (answered p m)) = logged m.
Proof. intros H. by_cases_with_output m H. Qed.

Lemma promptState_displayed m (p : string) :
  stdout m <> None ->
  output (displayed p m) = output m ++ [p]
  /\ pendingLines (displayed p m) = pendingLines m
  /\ openInterfaces (displayed p m) = openInterfaces m
  /\ logged (displayed p m) = logged m.
Proof. intros H. by_cases_with_output m H. Qed.

Lemma prompts_not_interactive m (question : string)
  (yn : YesNoPromptOptions.t) (tx : TextPromptOptions.t) :
  isInteractive m = false ->
  promptYesNo question yn m
  = (match YesNoPromptOptions.defaultValue yn with
     | Some d => Returned d
     | None => Threw (Error "TTY input is not available for yes/no prompt.")
     end, m)
  /\ promptText question tx m
     = (match TextPromptOptions.defaultValue tx with
        | Some d => Returned d
        | None => Threw (Error "TTY input is not available for text prompt.")
        end, m).
Proof.
  intros H. unfold promptYesNo, promptText, bind, gets. rewrite H. simpl.
  destruct (YesNoPromptOptions.defaultValue yn),
    (TextPromptOptions.defaultValue tx); split; reflexivity.
Qed.

Lemma stdout_opened m : stdout m <> None -> stdout (opened m) <> None.
Proof. now destruct m. Qed.

(** What a prompt that returns after [k] rejected lines leaves behind. *)
Lemma promptState_returned m (p w : string) (k : nat) :
  stdout m <> None ->
  let m' := closed (answered p (Nat.iter k (retried p w) (opened m))) in
  output m' = output m ++ repeat p (S k)
  /\ pendingLines m' = skipn (S k) (pendingLines m)
  /\ openInterfaces m' = openInterfaces m
  /\ logged m' = logged m ++ warnings m w k.
Proof.
  cbv zeta. intros H.
  destruct (promptState_iter_retried (opened m) p w k (stdout_opened m H))
    as (H1 & H2 & H3 & H4 & H5 & H6).
  destruct (promptState_answered _ p H1) as (G1 & G2 & G3 & G4).
  rewrite G1, G2, G3, G4, H2, H3, H4, H5.
  repeat split.
  - change (output (opened m)) with (output m).
    rewrite <- app_assoc. f_equal.
    change [p] with (repeat p 1). rewrite <- repeat_app. f_equal. lia.
  - change (pendingLines (opened m)) with (pendingLines m).
    generalize (pendingLines m). clear. induction k; intros l.
    + destruct l; reflexivity.
    + destruct l; [reflexivity |]. simpl in *. apply IHk.
Qed.

(** What a prompt that stays suspended after [k] rejected lines leaves
    behind. *)
Lemma promptState_suspended m (p w : string) (k : nat) :
  stdout m <> None ->
  let m' := displayed p (Nat.iter k (retried p w) (opened m)) in
  output m' = output m ++ repeat p (S k)
  /\ pendingLines m' = skipn k (pendingLines m)
  /\ openInterfaces m' = S (openInterfaces m)
  /\ logged m' = logged m ++ warnings m w k.
Proof.
  cbv zeta. intros H.
  destruct (promptState_iter_retried (opened m) p w k (stdout_opened m H))
    as (H1 & H2 & H3 & H4 & H5 & H6).
  destruct (promptState_displayed _ p H1) as (G1 & G2 & G3 & G4).
  rewrite G1, G2, G3, G4, H2, H3, H4, H5.
  repeat split.
  change (output (opened m)) with (output m).
  rewrite <- app_assoc. f_equal.
  change [p] with (repeat p 1). rewrite <- repeat_app. f_equal. lia.
Qed.

Lemma skipn_past {A : Type} (before after : list A) (x : A) :
  skipn (S (length before)) (before ++ x :: after) = after.
Proof. induction before as [| y before IH]; [reflexivity | exact IH]. Qed.

Lemma stdout_interactive m : isInteractive m = true -> stdout m <> None.
Proof.
  intros H. destruct (isInteractive_true m H) as (s & w & _ & _ & E). congruence.
Qed.

Lemma pendingLines_stdin m (s : ReadStream U) :
  stdin m = Some s -> pendingLines m = lines s.
Proof. unfold pendingLines. now intros ->. Qed.



(** X3.  With a terminal, when the lines to come are some lines that
    the loop of [promptYesNo] rejects followed by one that it accepts,
    the prompt returns what that line says.  It has then written the
    prompt once for each of these lines, warned once for each rejected
    one, and left the lines that follow untouched. *)
Theorem promptYesNo_returns_first_valid_answer
  m (s : ReadStream U) (question : string) (o : YesNoPromptOptions.t)
  (before after : list string) (answer : string) (b : bool) :
  let r := promptYesNo question o m in
  isInteractive m = true -> stdin m = Some s ->
  lines s = before ++ answer :: after ->
  Forall (fun l => yesNoAnswer o l = None) before ->
  yesNoAnswer o answer = Some b ->
  fst r = Returned b
  /\ output (snd r)
     = output m ++ repeat (yesNoPromptText question) (S (length before))
  /\ logged (snd r)
     = logged m ++ warnings m "Please answer with y or n." (length before)
  /\ pendingLines (snd r) = after.
Proof.
  cbv zeta. intros Hi Hs Hl Hb Ha.
  assert (firstAnswer (yesNoAnswer o) (lines s) = Some (length before, b)) as E
    by (apply firstAnswer_Some; now exists before, answer, after).
  rewrite (promptYesNo_run m s question o Hi Hs), E. cbn [fst snd].
  destruct (promptState_returned m (yesNoPromptText question)
              "Please answer with y or n." (length before)
              (stdout_interactive m Hi)) as (H1 & H2 & _ & H4).
  rewrite H1, H2, H4, (pendingLines_stdin m s Hs), Hl.
  repeat split. apply skipn_past.
Qed.

(** X4.  The same for [promptText]: it returns what the first line that
    its loop accepts gives, after one prompt for each line read and one
    warning for each rejected one. *)
Theorem promptText_returns_first_valid_answer
  m (s : ReadStream U) (question : string) (o : TextPromptOptions.t)
  (before after : list string) (answer t : string) :
  let r := promptText question o m in
  isInteractive m = true -> stdin m = Some s ->
  lines s = before ++ answer :: after ->
  Forall (fun l => textAnswer o l = None) before ->
  textAnswer o answer = Some t ->
  fst r = Returned t
  /\ output (snd r)
     = output m ++ repeat (textPromptText question) (S (length before))
  /\ logged (snd r)
     = logged m ++ warnings m "Input cannot be empty." (length before)
  /\ pendingLines (snd r) = after.
Proof.
  cbv zeta. intros Hi Hs Hl Hb Ha.
  assert (firstAnswer (textAnswer o) (lines s) = Some (length before, t)) as E
    by (apply firstAnswer_Some; now exists before, answer, after).
  rewrite (promptText_run m s question o Hi Hs), E. cbn [fst snd].
  destruct (promptState_returned m (textPromptText question)
              "Input cannot be empty." (length before)
              (stdout_interactive m Hi)) as (H1 & H2 & _ & H4).
  rewrite H1, H2, H4, (pendingLines_stdin m s Hs), Hl.
  repeat split. apply skipn_past.
Qed.

(** X5.  With a terminal, [promptYesNo] stays suspended exactly when its
    loop rejects every line to come.  It has then taken all the lines,
    warned once for each, and written the prompt once more than there
    were lines. *)
Theorem promptYesNo_suspended_without_valid_answer
  m (s : ReadStream U) (question : string) (o : YesNoPromptOptions.t) :
  let r := promptYesNo question o m in
  isInteractive m = true -> stdin m = Some s ->
  (fst r = Pending <-> Forall (fun l => yesNoAnswer o l = None) (lines s))
  /\ (fst r = Pending ->
      output (snd r)
      = output m ++ repeat (yesNoPromptText question) (S (length (lines s)))
      /\ logged (snd r)
         = logged m ++ warnings m "Please answer with y or n." (length (lines s))
      /\ pendingLines (snd r) = []).
Proof.
  cbv zeta. intros Hi Hs.
  rewrite (promptYesNo_run m s question o Hi Hs).
  destruct (firstAnswer (yesNoAnswer o) (lines s)) as [[k b] |] eqn:E;
    cbn [fst snd].
  - split; [split |]; try discriminate.
    intros H. apply firstAnswer_None in H. congruence.
  - split; [split; [intros _; now apply firstAnswer_None | reflexivity] |].
    intros _.
    destruct (promptState_suspended m (yesNoPromptText question)
                "Please answer with y or n." (length (lines s))
                (stdout_interactive m Hi)) as (H1 & H2 & _ & H4).
    rewrite H1, H2, H4, (pendingLines_stdin m s Hs).
    repeat split. apply skipn_all.
Qed.

(** X6.  The same for [promptText]. *)
Theorem promptText_suspended_without_valid_answer
  m (s : ReadStream U) (question : string) (o : TextPromptOptions.t) :
  let r := promptText question o m in
  isInteractive m = true -> stdin m = Some s ->
  (fst r = Pending <-> Forall (fun l => textAnswer o l = None) (lines s))
  /\ (fst r = Pending ->
      output (snd r)
      = output m ++ repeat (textPromptText question) (S (length (lines s)))
      /\ logged (snd r)
         = logged m ++ warnings m "Input cannot be empty." (length (lines s))
      /\ pendingLines (snd r) = []).
Proof.
  cbv zeta. intros Hi Hs.
  rewrite (promptText_run m s question o Hi Hs).
  destruct (firstAnswer (textAnswer o) (lines s)) as [[k b] |] eqn:E;
    cbn [fst snd].
  - split; [split |]; try discriminate.
    intros H. apply firstAnswer_None in H. congruence.
  - split; [split; [intros _; now apply firstAnswer_None | reflexivity] |].
    intros _.
    destruct (promptState_suspended m (textPromptText question)
                "Input cannot be empty." (length (lines s))
                (stdout_interactive m Hi)) as (H1 & H2 & _ & H4).
    rewrite H1, H2, H4, (pendingLines_stdin m s Hs).
    repeat split. apply skipn_all.
Qed.

Lemma toLowerCase_empty (s : string) : toLowerCase s = "" <-> s = "".
Proof. destruct s; simpl; split; intros H; try reflexivity; discriminate. Qed.

(** A prompt that returns on the first line. *)
Lemma promptState_first_line m (s : ReadStream U) (p : string)
  (answer : string) (rest : list string) :
  isInteractive m = true -> stdin m = Some s -> lines s = answer :: rest ->
  let m' := closed (answered p (opened m)) in
  output m' = output m ++ [p]
  /\ logged m' = logged m
  /\ pendingLines m' = rest.
Proof.
  cbv zeta. intros Hi Hs Hl.
  destruct (promptState_returned m p "" 0 (stdout_interactive m Hi))
    as (H1 & H2 & _ & H4).
  simpl Nat.iter in *. rewrite H1, H2, H4, (pendingLines_stdin m s Hs), Hl.
  unfold warnings. destruct (warns m); simpl; now rewrite app_nil_r.
Qed.

(** X7.  With a terminal and a default value, a first line that is
    empty or white space makes [promptYesNo] return the default value
    at once: one prompt, no warning, one line taken. *)
Theorem promptYesNo_blank_line_takes_default
  m (s : ReadStream U) (question answer : string) (rest : list string)
  (o : YesNoPromptOptions.t) (d : bool) :
  let r := promptYesNo question o m in
  isInteractive m = true -> stdin m = Some s -> lines s = answer :: rest ->
  trim answer = "" -> YesNoPromptOptions.defaultValue o = Some d ->
  fst r = Returned d
  /\ output (snd r) = output m ++ [yesNoPromptText question]
  /\ logged (snd r) = logged m
  /\ pendingLines (snd r) = rest.
Proof.
  cbv zeta. intros Hi Hs Hl Ht Hd.
  assert (yesNoAnswer o answer = Some d) as Ha
    by (unfold yesNoAnswer; rewrite Ht, Hd; reflexivity).
  rewrite (promptYesNo_answer m s question answer rest o d Hi Hs Hl Ha).
  split; [reflexivity |].
  exact (promptState_first_line m s _ answer rest Hi Hs Hl).
Qed.

(** X8.  With a terminal and a default value, [promptText] returns on
    the first line whatever it is: the default value for a line that is
    empty or white space, the trimmed line otherwise.  It never warns. *)
Theorem promptText_with_default_reads_one_line
  m (s : ReadStream U) (question answer : string) (rest : list string)
  (o : TextPromptOptions.t) (d : string) :
  let r := promptText question o m in
  isInteractive m = true -> stdin m = Some s -> lines s = answer :: rest ->
  TextPromptOptions.defaultValue o = Some d ->
  fst r = Returned (if strictEq (trim answer) "" then d else trim answer)
  /\ output (snd r) = output m ++ [textPromptText question]
  /\ logged (snd r) = logged m
  /\ pendingLines (snd r) = rest.
Proof.
  cbv zeta. intros Hi Hs Hl Hd.
  assert (textAnswer o answer
          = Some (if strictEq (trim answer) "" then d else trim answer)) as Ha.
  { unfold textAnswer. rewrite Hd. now destruct (trim answer). }
  rewrite (promptText_answer m s question answer rest o _ Hi Hs Hl Ha).
  split; [reflexivity |].
  exact (promptState_first_line m s _ answer rest Hi Hs Hl).
Qed.

Lemma trimEnd_idempotent (s : string) : trimEnd (trimEnd s) = trimEnd s.
Proof.
  rewrite <- (replaceTrailingSpaces_trimEnd s "") at 2.
  generalize (trimEnd s). clear s. intros s.
  induction s as [| c t IH]; [reflexivity |].
  simpl. destruct (isWhiteSpace c && allWhiteSpace t); [reflexivity |].
  now rewrite IH.
Qed.

Lemma trimStart_head (s : string) :
  match trimStart s with
  | EmptyString => True
  | String c _ => isWhiteSpace c = false
  end.
Proof.
  induction s as [| c t IH]; simpl; [exact I |].
  destruct (isWhiteSpace c) eqn:E; [exact IH | exact E].
Qed.

(** [trim] leaves nothing for a second [trim] to remove. *)
Lemma trim_idempotent (s : string) : trim (trim s) = trim s.
Proof.
  unfold trim. pose proof (trimStart_head s) as H.
  destruct (trimStart s) as [| c t]; [reflexivity |].
  assert (trimStart (trimEnd (String c t)) = trimEnd (String c t)) as ->.
  { simpl. rewrite H. simpl. now rewrite H. }
  apply trimEnd_idempotent.
Qed.

Lemma textAnswer_Some (o : TextPromptOptions.t) (a t : string) :
  textAnswer o a = Some t ->
  TextPromptOptions.defaultValue o = Some t
  \/ (t = "" /\ TextPromptOptions.allowEmpty o = Some true)
  \/ (t <> "" /\ t = trim a).
Proof.
  unfold textAnswer. destruct (trim a) as [| c r] eqn:E; simpl.
  - destruct (TextPromptOptions.defaultValue o) as [d |].
    + intros H. inversion H. now left.
    + destruct (TextPromptOptions.allowEmpty o) as [[|] |]; simpl;
        try discriminate.
      intros H. inversion H. right. left. now split.
  - intros H. inversion H. right. right. split; [discriminate | reflexivity].
Qed.

Lemma yesNo_words (n : string) (b : bool) :
  (if strictEq n "y" || strictEq n "yes" then Some true
   else if strictEq n "n" || strictEq n "no" then Some false
   else None) = Some b ->
  (b = true /\ (n = "y" \/ n = "yes"))
  \/ (b = false /\ (n = "n" \/ n = "no")).
Proof.
  destruct (strictEq n "y" || strictEq n "yes") eqn:E1.
  - intros H. inversion H. left. split; [reflexivity |].
    apply orb_true_iff in E1. destruct E1 as [E | E];
      apply strictEq_eq in E; auto.
  - destruct (strictEq n "n" || strictEq n "no") eqn:E2; [| discriminate].
    intros H. inversion H. right. split; [reflexivity |].
    apply orb_true_iff in E2. destruct E2 as [E | E];
      apply strictEq_eq in E; auto.
Qed.

Lemma yesNoAnswer_Some (o : YesNoPromptOptions.t) (a : string) (b : bool) :
  yesNoAnswer o a = Some b ->
  let normalized := toLowerCase (trim a) in
  (normalized = "" /\ YesNoPromptOptions.defaultValue o = Some b)
  \/ (b = true /\ (normalized = "y" \/ normalized = "yes"))
  \/ (b = false /\ (normalized = "n" \/ normalized = "no")).
Proof.
  cbv zeta. unfold yesNoAnswer.
  destruct (strictEq (toLowerCase (trim a)) "") eqn:E0;
    destruct (YesNoPromptOptions.defaultValue o) as [d |];
    intros H; try (right; exact (yesNo_words _ b H)).
  apply strictEq_eq in E0. inversion H. subst. left. now split.
Qed.

(** X9.  What [promptText] returns, with or without a terminal, is the
    default value, or the empty string when [allowEmpty] is set, or one
    of the lines to come without its surrounding white space: a text
    that is not empty and that [trim] leaves as it is. *)
Theorem promptText_result
  m (question : string) (o : TextPromptOptions.t) (t : string) :
  fst (promptText question o m) = Returned t ->
  TextPromptOptions.defaultValue o = Some t
  \/ (t = "" /\ TextPromptOptions.allowEmpty o = Some true)
  \/ (t <> "" /\ trim t = t
      /\ exists answer, In answer (pendingLines m) /\ t = trim answer).
Proof.
  destruct (isInteractive m) eqn:Hi.
  - destruct (isInteractive_true m Hi) as (s & w & Hs & _).
    rewrite (promptText_run m s question o Hi Hs).
    destruct (firstAnswer (textAnswer o) (lines s)) as [[k t'] |] eqn:E;
      [| discriminate].
    cbn [fst]. intros H. inversion H. subst t'.
    apply firstAnswer_Some in E.
    destruct E as (before & answer & after & Hl & _ & _ & Ha).
    destruct (textAnswer_Some o answer t Ha) as [Hd | [He | [Hn Ht]]]; auto.
    right. right. split; [exact Hn | split].
    + rewrite Ht. apply trim_idempotent.
    + exists answer. split; [| exact Ht].
      rewrite (pendingLines_stdin m s Hs), Hl. apply in_elt.
  - destruct (prompts_not_interactive m question
                {| YesNoPromptOptions.defaultValue := None |} o Hi) as [_ ->].
    cbn [fst]. destruct (TextPromptOptions.defaultValue o); [| discriminate].
    intros H. inversion H. now left.
Qed.

(** X10.  What [promptYesNo] returns, with or without a terminal, is the
    default value or what one of the lines to come says: [true] for a
    line that reads "y" or "yes" once trimmed and lowercased, [false]
    for one that reads "n" or "no". *)
Theorem promptYesNo_result
  m (question : string) (o : YesNoPromptOptions.t) (b : bool) :
  fst (promptYesNo question o m) = Returned b ->
  YesNoPromptOptions.defaultValue o = Some b
  \/ exists answer,
       In answer (pendingLines m)
       /\ let normalized := toLowerCase (trim answer) in
          if b then normalized = "y" \/ normalized = "yes"
          else normalized = "n" \/ normalized = "no".
Proof.
  destruct (isInteractive m) eqn:Hi.
  - destruct (isInteractive_true m Hi) as (s & w & Hs & _).
    rewrite (promptYesNo_run m s question o Hi Hs).
    destruct (firstAnswer (yesNoAnswer o) (lines s)) as [[k b'] |] eqn:E;
      [| discriminate].
    cbn [fst]. intros H. inversion H. subst b'.
    apply firstAnswer_Some in E.
    destruct E as (before & answer & after & Hl & _ & _ & Ha).
    destruct (yesNoAnswer_Some o answer b Ha) as [[_ Hd] | [[-> Hy] | [-> Hn]]];
      [now left | right | right];
      exists answer; (split; [| assumption]);
      rewrite (pendingLines_stdin m s Hs), Hl; apply in_elt.
  - destruct (prompts_not_interactive m question o
                {| TextPromptOptions.defaultValue := None;
                   TextPromptOptions.allowEmpty := None |} Hi) as [-> _].
    cbn [fst]. destruct (YesNoPromptOptions.defaultValue o); [| discriminate].
    intros H. inversion H. now left.
Qed.

Ltac raw_state_cases m :=
  let i := fresh "i" in
  let o := fresh "o" in
  let lg := fresh "lg" in
  destruct m as [i o lg ? ? ? ? ?];
  unfold rawState, dataListeners, retried, answered, warned,
    lineTaken, displayed, opened, closed;
  simpl;
  destruct o, i, lg as [[? [] ?] |]; reflexivity.

Lemma rawState_retried m (p w : string) : rawState (retried p w m) = rawState m.
Proof. raw_state_cases m. Qed.

Lemma rawState_iter_retried m (p w : string) (k : nat) :
  rawState (Nat.iter k (retried p w) m) = rawState m.
Proof.
  induction k as [| k IH]; [reflexivity |].
  now rewrite Nat.iter_succ, rawState_retried.
Qed.

Lemma rawState_answered m (p : string) :
  rawState (closed (answered p (opened m))) = rawState m.
Proof. raw_state_cases m. Qed.

Lemma rawState_displayed m (p : string) :
  rawState (displayed p (opened m)) = rawState m.
Proof. raw_state_cases m. Qed.

Lemma opened_iter_retried m (p w : string) (k : nat) :
  Nat.iter k (retried p w) (opened m) = opened (Nat.iter k (retried p w) m).
Proof.
  induction k as [| k IH]; [reflexivity |].
  now rewrite !Nat.iter_succ, IH, opened_retried.
Qed.

(** ** Raw mode in detail *)

(** The state of the manager after [enableRawMode] has attached. *)
Lemma enableRawMode_attached_state m (s s1 s2 : ReadStream U) h :
  stdin m = Some s -> isTTY s = true ->
  callSetRawMode true s = inr s1 -> callResume s1 = inr s2 ->
  let l := {| closure := allocated m; handler := h |} in
  enableRawMode h m
  = (Returned true,
     withStdin (Some (on l s2))
       (withRawInputHandler (Some l)
          (withAllocated (S (allocated m))
             (withRawModeEnabled true m)))).
Proof.
  cbv zeta. destruct m as [i o lg r e lgd a n]. simpl. intros -> Ht H1 H2.
  assert (isTTY s1 = true /\ isTTY s2 = true) as [Ht1 Ht2].
  { unfold callSetRawMode in H1. unfold callResume in H2.
    destruct (setRawMode s) as [f |]; [destruct (f true) |];
      destruct (resumeThrows s1); inversion H1; inversion H2; subst;
      simpl; auto. }
  unfold enableRawMode, bind, gets, tryCatch, onStdin, modify, ret,
    newListener, stdinIsTTY. simpl.
  rewrite Ht. simpl. rewrite H1. simpl. rewrite H2. reflexivity.
Qed.

(** The state of the manager after the switch has thrown. *)
Lemma enableRawMode_failed_state m (s : ReadStream U) h (e : JsError) :
  stdin m = Some s -> isTTY s = true -> switchError s = Some e ->
  enableRawMode h m
  = (Returned false,
     errored [LogString "Failed to enable raw mode input:"; LogThrown e]
       (withStdin
          (Some match callSetRawMode true s with
                | inl _ => s
                | inr s1 => s1
                end) m)).
Proof.
  destruct m as [i o lg r en lgd a n]. simpl. intros -> Ht He.
  unfold switchError in He.
  unfold enableRawMode, bind, gets, tryCatch, onStdin, modify, ret,
    newListener, stdinIsTTY, logError. simpl.
  rewrite Ht. simpl.
  destruct (callSetRawMode true s) as [e1 | s1]; simpl.
  - inversion He. reflexivity.
  - destruct (callResume s1) as [e2 | s2]; simpl; [| discriminate].
    inversion He. reflexivity.
Qed.

Lemma rawModeAvailable_switchError (s : ReadStream U) :
  rawModeAvailable s = true <-> switchError s = None.
Proof.
  unfold rawModeAvailable, switchError.
  destruct (callSetRawMode true s) as [e | s1];
    [| destruct (callResume s1)]; split; congruence.
Qed.

(** [disableRawMode] where nothing is attached and raw mode is off. *)
Lemma disableRawMode_idle m :
  rawInputHandler m = None -> rawModeEnabled m = false ->
  disableRawMode m = (Returned tt, m).
Proof.
  destruct m as [i o lg r e lgd a n]. simpl. intros -> ->.
  unfold disableRawMode, bind, gets, ret. simpl. now destruct i.
Qed.

Lemma disableRawMode_without_input m :
  stdin m = None -> disableRawMode m = (Returned tt, m).
Proof.
  intros H. unfold disableRawMode, bind, gets, ret. now rewrite H.
Qed.

(** The state of the manager after [disableRawMode]. *)
Lemma disableRawMode_state m (s : ReadStream U) :
  stdin m = Some s ->
  let s0 := match rawInputHandler m with
            | Some l => off l s
            | None => s
            end in
  let m0 := withRawInputHandler None (withStdin (Some s0) m) in
  disableRawMode m
  = (Returned tt,
     if rawModeEnabled m then
       withRawModeEnabled false
         match callSetRawMode false s0 with
         | inl e =>
             warned [LogString "Failed to disable raw mode cleanly:"; LogThrown e]
               m0
         | inr s1 =>
             match callPause s1 with
             | inl e =>
                 warned
                   [LogString "Failed to disable raw mode cleanly:"; LogThrown e]
                   (withStdin (Some s1) m0)
             | inr s2 => withStdin (Some s2) m0
             end
         end
     else m0).
Proof.
  cbv zeta. destruct m as [i o lg r e lgd a n]. simpl. intros ->.
  unfold disableRawMode, bind, gets, tryCatch, onStdin, modify, ret, logWarn.
  simpl.
  destruct r as [l |]; simpl; destruct e; simpl; try reflexivity.
  - destruct (callSetRawMode false (off l s)) as [e1 | s1]; simpl;
      [reflexivity |].
    destruct (callPause s1); reflexivity.
  - destruct (callSetRawMode false s) as [e1 | s1]; simpl; [reflexivity |].
    destruct (callPause s1); reflexivity.
Qed.

Lemma callSetRawMode_keeps (mode : bool) (s s1 : ReadStream U) :
  callSetRawMode mode s = inr s1 ->
  sameDevice s s1 /\ listeners s1 = listeners s /\ lines s1 = lines s
  /\ flowing s1 = flowing s.
Proof.
  unfold callSetRawMode.
  destruct (setRawMode s) as [f |]; [destruct (f mode) |];
    intros H; inversion H; subst; repeat split.
Qed.

(** X12.  On a terminal where the switch to raw mode throws,
    [enableRawMode] returns [false]; a logger with an [error] channel
    receives one call, "Failed to enable raw mode input:" with the error
    thrown, and nothing is attached: the stored handler, the raw mode
    flag and the listeners are as before. *)
Theorem enableRawMode_failure_is_logged m (s : ReadStream U) h (e : JsError) :
  let r := enableRawMode h m in
  stdin m = Some s -> isTTY s = true -> switchError s = Some e ->
  fst r = Returned false
  /\ logged (snd r)
     = logged m
       ++ (if reportsErrors m
           then [Errored [LogString "Failed to enable raw mode input:";
                          LogThrown e]]
           else [])
  /\ rawInputHandler (snd r) = rawInputHandler m
  /\ rawModeEnabled (snd r) = rawModeEnabled m
  /\ dataListeners (snd r) = dataListeners m.
Proof.
  cbv zeta. intros Hs Ht He.
  rewrite (enableRawMode_failed_state m s h e Hs Ht He). cbn [fst snd].
  assert (listeners match callSetRawMode true s with
                    | inl _ => s
                    | inr s1 => s1
                    end = listeners s) as Hl.
  { destruct (callSetRawMode true s) as [e1 | s1] eqn:E; [reflexivity |].
    now destruct (callSetRawMode_keeps true s s1 E) as (_ & -> & _). }
  destruct m as [i o lg r en lgd a n]. simpl in Hs. subst i.
  unfold errored, reportsErrors, dataListeners. simpl.
  destruct lg as [[? ? []] |]; simpl; rewrite ?app_nil_r, ?Hl;
    repeat split.
Qed.

(** X13.  When [setRawMode(true)] goes through and [resume()] throws,
    [enableRawMode] returns [false] with the terminal in raw mode and
    the raw mode flag still off, so that [disableRawMode] does not
    switch the terminal back. *)
Theorem terminal_left_raw_when_resume_throws
  m (s : ReadStream U) h (f : bool -> option JsError) (e : JsError) :
  let m1 := snd (enableRawMode h m) in
  stdin m = Some s -> isTTY s = true ->
  setRawMode s = Some f -> f true = None -> resumeThrows s = Some e ->
  rawModeEnabled m = false ->
  fst (enableRawMode h m) = Returned false
  /\ terminalMode m1 = Some (true, flowing s)
  /\ rawModeEnabled m1 = false
  /\ terminalMode (snd (disableRawMode m1)) = Some (true, flowing s).
Proof.
  cbv zeta. intros Hs Ht Hf Hf' Hr He.
  assert (switchError s = Some e) as Hsw.
  { unfold switchError, callSetRawMode, callResume. rewrite Hf, Hf'. simpl.
    now rewrite Hr. }
  rewrite (enableRawMode_failed_state m s h e Hs Ht Hsw). cbn [fst snd].
  unfold callSetRawMode. rewrite Hf, Hf'.
  destruct m as [i o lg r en lgd a n]. simpl in Hs, He. subst i en.
  unfold errored. simpl.
  destruct lg as [[? ? []] |]; simpl; repeat split;
    unfold disableRawMode, bind, gets, ret, onStdin, modify; simpl;
    destruct r; reflexivity.
Qed.

(** X14.  [disableRawMode] returns in every state, also where the way
    back throws.  Without an input handle it changes nothing; with one
    it leaves no handler stored and the raw mode flag off. *)
Theorem disableRawMode_always_returns m :
  fst (disableRawMode m) = Returned tt
  /\ (stdin m = None -> snd (disableRawMode m) = m)
  /\ (stdin m <> None ->
      rawInputHandler (snd (disableRawMode m)) = None
      /\ rawModeEnabled (snd (disableRawMode m)) = false
      /\ stdin (snd (disableRawMode m)) <> None).
Proof.
  destruct (stdin m) as [s |] eqn:Hs.
  - rewrite (disableRawMode_state m s Hs). cbn [fst snd].
    split; [reflexivity | split; [discriminate |]]. intros _.
    destruct (rawModeEnabled m) eqn:He.
    + destruct (callSetRawMode false _) as [e1 | s1];
        [| destruct (callPause s1)]; unfold warned; simpl;
        destruct (logger m) as [[? [] ?] |]; simpl;
        repeat split; discriminate.
    + simpl. repeat split; [exact He | discriminate].
  - rewrite (disableRawMode_without_input m Hs).
    split; [reflexivity | split; [reflexivity | congruence]].
Qed.

(** X15.  [disableRawMode] is idempotent: a second call in a row returns
    and changes nothing. *)
Theorem disableRawMode_idempotent m :
  disableRawMode (snd (disableRawMode m))
  = (Returned tt, snd (disableRawMode m)).
Proof.
  destruct (stdin m) as [s |] eqn:Hs.
  - apply disableRawMode_idle.
    + rewrite (disableRawMode_state m s Hs). cbn [snd].
      destruct (rawModeEnabled m); [| reflexivity].
      destruct (callSetRawMode false _) as [e1 | s1];
        [| destruct (callPause s1)]; unfold warned; simpl;
        destruct (logger m) as [[? [] ?] |]; reflexivity.
    + rewrite (disableRawMode_state m s Hs). cbn [snd].
      destruct (rawModeEnabled m) eqn:He; [reflexivity | exact He].
  - rewrite (disableRawMode_without_input m Hs). cbn [snd].
    now apply disableRawMode_without_input.
Qed.

Lemma restoreError_off (l : Listener U) (s : ReadStream U) :
  restoreError (off l s) = restoreError s.
Proof.
  unfold restoreError, callSetRawMode, callPause, off. simpl.
  destruct (setRawMode s) as [f |]; [destruct (f false) |]; simpl;
    try reflexivity; destruct (pauseThrows s); reflexivity.
Qed.

(** X16.  When the way back from raw mode throws, [disableRawMode]
    still returns and turns the raw mode flag off; a logger with a
    [warn] channel receives "Failed to disable raw mode cleanly:" with
    the error thrown, and the stream is not paused. *)
Theorem disableRawMode_swallows_restore_failure
  m (s : ReadStream U) (e : JsError) :
  let r := disableRawMode m in
  stdin m = Some s -> rawModeEnabled m = true -> restoreError s = Some e ->
  fst r = Returned tt
  /\ rawModeEnabled (snd r) = false
  /\ rawInputHandler (snd r) = None
  /\ logged (snd r)
     = logged m
       ++ (if warns m
           then [Warned [LogString "Failed to disable raw mode cleanly:";
                         LogThrown e]]
           else [])
  /\ exists raw, terminalMode (snd r) = Some (raw, flowing s).
Proof.
  cbv zeta. intros Hs He Hr.
  rewrite (disableRawMode_state m s Hs), He. cbn [fst snd].
  set (s0 := match rawInputHandler m with Some l => off l s | None => s end).
  assert (restoreError s0 = Some e /\ flowing s0 = flowing s) as [Hr0 Hf0].
  { unfold s0. destruct (rawInputHandler m);
      [rewrite restoreError_off |]; split; auto. }
  unfold restoreError in Hr0.
  destruct (callSetRawMode false s0) as [e1 | s1] eqn:E1.
  - inversion Hr0. subst e1.
    unfold warned, warns, terminalMode. simpl.
    destruct (logger m) as [[? [] ?] |]; simpl; rewrite ?app_nil_r;
      repeat split; eexists; rewrite Hf0; reflexivity.
  - destruct (callSetRawMode_keeps false s0 s1 E1) as (_ & _ & _ & Hf1).
    destruct (callPause s1) as [e2 | s2]; [| discriminate].
    inversion Hr0. subst e2.
    unfold warned, warns, terminalMode. simpl.
    destruct (logger m) as [[? [] ?] |]; simpl; rewrite ?app_nil_r;
      repeat split; eexists; rewrite Hf1, Hf0; reflexivity.
Qed.

Lemma callResume_keeps (s s1 : ReadStream U) :
  callResume s = inr s1 ->
  sameDevice s s1 /\ listeners s1 = listeners s /\ lines s1 = lines s
  /\ rawMode s1 = rawMode s /\ flowing s1 = true.
Proof.
  unfold callResume. destruct (resumeThrows s); intros H; inversion H.
  repeat split.
Qed.

Lemma callPause_keeps (s s1 : ReadStream U) :
  callPause s = inr s1 ->
  sameDevice s s1 /\ listeners s1 = listeners s /\ lines s1 = lines s
  /\ rawMode s1 = rawMode s /\ flowing s1 = false.
Proof.
  unfold callPause. destruct (pauseThrows s); intros H; inversion H.
  repeat split.
Qed.

(** X17.  On a terminal where the switch to raw mode goes through,
    [enableRawMode] followed by [disableRawMode] leaves the listeners on
    the input exactly as they were, whatever was registered before: a
    chunk is handled as before the two calls, and the handler is not
    called. *)
Theorem enable_then_disable_restores_listeners m (s : ReadStream U) h :
  let m2 := snd (disableRawMode (snd (enableRawMode h m))) in
  stdin m = Some s -> isTTY s = true -> rawModeAvailable s = true ->
  fst (enableRawMode h m) = Returned true
  /\ dataListeners m2 = dataListeners m
  /\ rawInputHandler m2 = None
  /\ rawModeEnabled m2 = false
  /\ forall (data : Buffer) (u : U), deliver data m2 u = deliver data m u.
Proof.
  cbv zeta. intros Hs Ht Ha.
  destruct (enableRawMode_attaches m s h Hs Ht Ha)
    as (s1 & Hf & Hs1 & _ & Hl1 & Hr1 & _).
  destruct (disableRawMode_detaches _ s1 Hs1)
    as (s2 & _ & Hs2 & _ & Hl2 & Hr2 & He2 & _).
  rewrite Hr1, Hl1 in Hl2.
  rewrite removeLast_last in Hl2.
  unfold dataListeners, deliver, emit. rewrite Hs2, Hs, Hl2.
  repeat split; assumption.
Qed.

(** X18.  On a terminal whose methods do not throw, [enableRawMode]
    leaves the terminal raw and flowing, and [disableRawMode] after it
    leaves it cooked and paused, whatever mode it was in before. *)
Theorem raw_mode_switches_the_terminal m (s : ReadStream U) h :
  let m1 := snd (enableRawMode h m) in
  stdin m = Some s -> isTTY s = true -> wellBehaved s ->
  fst (enableRawMode h m) = Returned true
  /\ terminalMode m1 = Some (true, true)
  /\ terminalMode (snd (disableRawMode m1)) = Some (false, false).
Proof.
  cbv zeta. intros Hs Ht ((f & Hf & Hf') & Hr & Hp).
  rewrite (enableRawMode_attached_state m s (withRawMode true s)
             (withFlowing true (withRawMode true s)) h Hs Ht).
  - cbn [fst snd]. split; [reflexivity | split; [reflexivity |]].
    destruct m as [i o lg r e lgd a n].
    unfold disableRawMode, bind, gets, tryCatch, onStdin, modify, ret,
      callSetRawMode, callPause, terminalMode. simpl.
    rewrite Hf, Hf'. simpl. rewrite Hp. reflexivity.
  - unfold callSetRawMode. now rewrite Hf, Hf'.
  - unfold callResume. simpl. now rewrite Hr.
Qed.

(** X19.  A terminal without a [setRawMode] method is tolerated: where
    [resume()] does not throw, [enableRawMode] attaches the handler and
    returns [true], and the mode of the terminal is not switched. *)
Theorem enableRawMode_without_setRawMode m (s : ReadStream U) h :
  let m1 := snd (enableRawMode h m) in
  stdin m = Some s -> isTTY s = true ->
  setRawMode s = None -> resumeThrows s = None ->
  fst (enableRawMode h m) = Returned true
  /\ terminalMode m1 = Some (rawMode s, true)
  /\ rawModeEnabled m1 = true
  /\ (forall (data : Buffer) (u : U),
        deliver data m1 u = h (toString data) (deliver data m u)).
Proof.
  cbv zeta. intros Hs Ht Hf Hr.
  rewrite (enableRawMode_attached_state m s s (withFlowing true s) h Hs Ht).
  - cbn [fst snd]. repeat split.
    intros data u. unfold deliver, emit. simpl. rewrite Hs.
    now rewrite fold_left_app.
  - unfold callSetRawMode. now rewrite Hf.
  - unfold callResume. now rewrite Hr.
Qed.

(** X20.  The raw mode methods keep off what the prompts work on: they
    write nothing to the output, take no line from the terminal and
    open no line reader. *)
Theorem raw_mode_leaves_prompts_alone m h :
  promptState (snd (enableRawMode h m)) = promptState m
  /\ promptState (snd (disableRawMode m)) = promptState m.
Proof.
  split.
  - destruct (stdinIsTTY m) eqn:Et.
    + unfold stdinIsTTY in Et.
      destruct (stdin m) as [s |] eqn:Hs; [| discriminate].
      destruct (switchError s) as [e |] eqn:He.
      * rewrite (enableRawMode_failed_state m s h e Hs Et He). cbn [snd].
        assert (lines match callSetRawMode true s with
                      | inl _ => s
                      | inr s1 => s1
                      end = lines s) as Hl.
        { destruct (callSetRawMode true s) as [e1 | s1] eqn:E; [reflexivity |].
          now destruct (callSetRawMode_keeps true s s1 E) as (_ & _ & -> & _). }
        destruct m as [i o lg r en lgd a n]. simpl in Hs. subst i.
        unfold promptState, output, pendingLines, errored. simpl.
        destruct lg as [[? ? []] |]; simpl; now rewrite Hl.
      * unfold switchError in He.
        destruct (callSetRawMode true s) as [e1 | s1] eqn:E1; [discriminate |].
        destruct (callResume s1) as [e2 | s2] eqn:E2; [discriminate |].
        rewrite (enableRawMode_attached_state m s s1 s2 h Hs Et E1 E2).
        cbn [snd].
        destruct (callSetRawMode_keeps true s s1 E1) as (_ & _ & Hl1 & _).
        destruct (callResume_keeps s1 s2 E2) as (_ & _ & Hl2 & _).
        unfold promptState, output, pendingLines. simpl.
        now rewrite Hs, Hl2, Hl1.
    + now rewrite (enableRawMode_refused m h Et).
  - destruct (stdin m) as [s |] eqn:Hs.
    + rewrite (disableRawMode_state m s Hs). cbn [snd].
      set (s0 := match rawInputHandler m with Some l => off l s | None => s end).
      assert (lines s0 = lines s) as Hl0
        by (unfold s0; now destruct (rawInputHandler m)).
      unfold promptState, output, pendingLines. rewrite Hs.
      destruct (rawModeEnabled m).
      * destruct (callSetRawMode false s0) as [e1 | s1] eqn:E1.
        -- unfold warned. simpl.
           destruct (logger m) as [[? [] ?] |]; simpl; now rewrite Hl0.
        -- destruct (callSetRawMode_keeps false s0 s1 E1) as (_ & _ & Hl1 & _).
           destruct (callPause s1) as [e2 | s2] eqn:E2.
           ++ unfold warned. simpl.
              destruct (logger m) as [[? [] ?] |]; simpl; now rewrite Hl1, Hl0.
           ++ destruct (callPause_keeps s1 s2 E2) as (_ & _ & Hl2 & _).
              simpl. now rewrite Hl2, Hl1, Hl0.
      * simpl. now rewrite Hl0.
    + now rewrite (disableRawMode_without_input m Hs).
Qed.

(** ** Sequences of calls *)

Lemma rawState_promptYesNo m (question : string) (o : YesNoPromptOptions.t) :
  rawState (snd (promptYesNo question o m)) = rawState m.
Proof.
  destruct (isInteractive m) eqn:Hi.
  - destruct (isInteractive_true m Hi) as (s & w & Hs & _).
    rewrite (promptYesNo_run m s question o Hi Hs).
    destruct (firstAnswer (yesNoAnswer o) (lines s)) as [[k b] |];
      cbn [snd]; rewrite opened_iter_retried.
    + now rewrite rawState_answered, rawState_iter_retried.
    + now rewrite rawState_displayed, rawState_iter_retried.
  - now destruct (prompts_not_interactive m question o
                    {| TextPromptOptions.defaultValue := None;
                       TextPromptOptions.allowEmpty := None |} Hi) as [-> _].
Qed.

Lemma rawState_promptText m (question : string) (o : TextPromptOptions.t) :
  rawState (snd (promptText question o m)) = rawState m.
Proof.
  destruct (isInteractive m) eqn:Hi.
  - destruct (isInteractive_true m Hi) as (s & w & Hs & _).
    rewrite (promptText_run m s question o Hi Hs).
    destruct (firstAnswer (textAnswer o) (lines s)) as [[k b] |];
      cbn [snd]; rewrite opened_iter_retried.
    + now rewrite rawState_answered, rawState_iter_retried.
    + now rewrite rawState_displayed, rawState_iter_retried.
  - now destruct (prompts_not_interactive m question
                    {| YesNoPromptOptions.defaultValue := None |} o Hi) as [_ ->].
Qed.

Lemma attachedConsistently_rawState m m' :
  rawState m' = rawState m -> attachedConsistently m -> attachedConsistently m'.
Proof.
  unfold rawState, attachedConsistently, createdBefore.
  intros H. inversion H as [[Hr He Hl Ha]].
  now rewrite Hr, He, Hl, Ha.
Qed.

Lemma In_removeLast (id : nat) (ls : list (Listener U)) (x : Listener U) :
  In x (removeLast id ls) -> In x ls.
Proof.
  induction ls as [| y ls IH]; simpl; [auto |].
  destruct (existsb _ ls).
  - simpl. intros [-> | H]; auto.
  - destruct (Nat.eqb (closure y) id); simpl; auto.
Qed.

Lemma NoDup_removeLast (id : nat) (ls : list (Listener U)) :
  NoDup (map closure ls) -> NoDup (map closure (removeLast id ls)).
Proof.
  induction ls as [| y ls IH]; simpl; [auto |].
  intros H. inversion H as [| ? ? Hn Hd]. subst.
  destruct (existsb _ ls).
  - simpl. constructor; [| now apply IH].
    intros Hin. apply Hn. apply in_map_iff in Hin.
    destruct Hin as (x & Hx & Hin). apply in_map_iff.
    exists x. split; [exact Hx | now apply In_removeLast in Hin].
  - destruct (Nat.eqb (closure y) id); [exact Hd | simpl; now constructor].
Qed.

Lemma attachedConsistently_enableRawMode m h :
  attachedConsistently m -> attachedConsistently (snd (enableRawMode h m)).
Proof.
  intros (Hc & Hd & Hr).
  destruct (stdinIsTTY m) eqn:Et.
  - unfold stdinIsTTY in Et.
    destruct (stdin m) as [s |] eqn:Hs; [| discriminate].
    unfold createdBefore, dataListeners in Hc, Hd, Hr. rewrite Hs in Hc, Hd, Hr.
    destruct (rawModeAvailable s) eqn:Ha.
    + destruct (enableRawMode_attaches m s h Hs Et Ha)
        as (s1 & _ & Hs1 & _ & Hl1 & Hr1 & He1 & Ha1).
      unfold attachedConsistently, createdBefore, dataListeners.
      rewrite Hs1, Hl1, Hr1, He1, Ha1. repeat split.
      * apply Forall_app. split.
        -- eapply Forall_impl; [| exact Hc]. simpl. intros; lia.
        -- constructor; [simpl; lia | constructor].
      * rewrite map_app. simpl. apply NoDup_app; [exact Hd | | ].
        -- constructor; [intros [] | constructor].
        -- intros x Hx [<- | []]. apply in_map_iff in Hx.
           destruct Hx as (y & Hy & Hin).
           rewrite Forall_forall in Hc. specialize (Hc y Hin). lia.
      * inversion H. apply in_or_app. right. now left.
    + destruct (enableRawMode_fails m s h Hs Et Ha)
        as (s1 & _ & Hs1 & _ & Hl1 & Hr1 & He1 & Ha1).
      unfold attachedConsistently, createdBefore, dataListeners.
      rewrite Hs1, Hl1, Hr1, He1, Ha1.
      split; [exact Hc | split; [exact Hd | exact Hr]].
  - now rewrite (enableRawMode_refused m h Et).
Qed.

Lemma attachedConsistently_disableRawMode m :
  attachedConsistently m -> attachedConsistently (snd (disableRawMode m)).
Proof.
  intros (Hc & Hd & Hr).
  destruct (stdin m) as [s |] eqn:Hs.
  - unfold createdBefore, dataListeners in Hc, Hd. rewrite Hs in Hc, Hd.
    destruct (disableRawMode_detaches m s Hs)
      as (s1 & _ & Hs1 & _ & Hl1 & Hr1 & He1 & Ha1).
    unfold attachedConsistently, createdBefore, dataListeners.
    rewrite Hs1, Hl1, Hr1, Ha1. split; [| split]; [| | discriminate].
    + destruct (rawInputHandler m); [| exact Hc].
      rewrite Forall_forall in *. intros x Hx.
      apply Hc. now apply In_removeLast in Hx.
    + destruct (rawInputHandler m); [| exact Hd]. now apply NoDup_removeLast.
  - rewrite (disableRawMode_without_input m Hs).
    split; [exact Hc | split; [exact Hd | exact Hr]].
Qed.

Lemma attachedConsistently_after (c : Call U) m :
  attachedConsistently m -> attachedConsistently (after c m).
Proof.
  destruct c as [q o | q o | h |]; simpl.
  - apply attachedConsistently_rawState, rawState_promptYesNo.
  - apply attachedConsistently_rawState, rawState_promptText.
  - apply attachedConsistently_enableRawMode.
  - apply attachedConsistently_disableRawMode.
Qed.

(** X21.  After any sequence of calls on a manager newly constructed on
    streams without a data listener, a stored handler is a listener
    registered on the input and the raw mode flag is on with it, and no
    function object is registered twice. *)
Theorem stored_handler_stays_registered
  (process : Process U) (options : InputManagerOptions U) (calls : list (Call U)) :
  let m := afterAll calls (newInputManager process options) in
  dataListeners (newInputManager process options) = [] ->
  (forall l, rawInputHandler m = Some l ->
     In l (dataListeners m) /\ rawModeEnabled m = true)
  /\ NoDup (map closure (dataListeners m)).
Proof.
  cbv zeta. intros H0.
  assert (attachedConsistently (newInputManager process options)) as Hi.
  { unfold attachedConsistently, createdBefore. rewrite H0.
    repeat split; try constructor; discriminate. }
  assert (attachedConsistently (afterAll calls (newInputManager process options)))
    as (_ & Hd & Hr).
  { revert Hi. generalize (newInputManager process options).
    unfold afterAll. induction calls as [| c calls IH]; intros m Hm;
      [exact Hm |].
    simpl. apply IH. now apply attachedConsistently_after. }
  split; assumption.
Qed.

Lemma afterAll_snoc (calls : list (Call U)) (c : Call U) m :
  afterAll (calls ++ [c]) m = after c (afterAll calls m).
Proof. unfold afterAll. now rewrite fold_left_app. Qed.

(** What a run of [enableRawMode] calls builds up. *)
Lemma enableRawMode_stack m (s : ReadStream U) (hs : list (Handler U)) :
  stdin m = Some s -> isTTY s = true -> rawModeAvailable s = true ->
  let m' := afterAll (map CallEnableRawMode hs) m in
  exists s',
    stdin m' = Some s' /\ sameDevice s s'
    /\ exists ls,
         listeners s' = listeners s ++ ls /\ map handler ls = hs
         /\ rawInputHandler m' = match rev ls with
                                 | l :: _ => Some l
                                 | [] => rawInputHandler m
                                 end.
Proof.
  cbv zeta. intros Hs Ht Ha. induction hs as [| h hs IH] using rev_ind.
  - exists s. repeat split; auto. exists []. now rewrite app_nil_r.
  - rewrite map_app. cbn [map]. rewrite afterAll_snoc. cbn [after].
    destruct IH as (s1 & Hs1 & Hd1 & ls & Hl1 & Hh1 & _).
    assert (isTTY s1 = true) as Ht1 by (destruct Hd1 as (-> & _); exact Ht).
    assert (rawModeAvailable s1 = true) as Ha1
      by (rewrite (rawModeAvailable_sameDevice _ _ Hd1); exact Ha).
    destruct (enableRawMode_attaches _ s1 h Hs1 Ht1 Ha1)
      as (s2 & _ & Hs2 & Hd2 & Hl2 & Hr2 & _).
    exists s2. split; [exact Hs2 | split].
    + exact (sameDevice_trans _ _ _ Hd1 Hd2).
    + eexists (ls ++ [_]). rewrite Hl2, Hl1, <- app_assoc, map_app, Hh1.
      split; [reflexivity | split; [reflexivity |]].
      now rewrite rev_app_distr, Hr2.
Qed.

(** X22.  On a terminal where the switch to raw mode goes through,
    calls of [enableRawMode] with no [disableRawMode] in between add up:
    after them a chunk goes to the listeners registered before and then
    to every one of the handlers, in the order of the calls.  One
    [disableRawMode] takes the last of them off and no other. *)
Theorem enableRawMode_calls_add_up
  m (s : ReadStream U) (hs : list (Handler U)) h :
  let m' := afterAll (map CallEnableRawMode (hs ++ [h])) m in
  stdin m = Some s -> isTTY s = true -> rawModeAvailable s = true ->
  forall (data : Buffer) (u : U),
    deliver data m' u
    = fold_left (fun u' h' => h' (toString data) u') (hs ++ [h])
        (deliver data m u)
    /\ deliver data (snd (disableRawMode m')) u
       = fold_left (fun u' h' => h' (toString data) u') hs (deliver data m u).
Proof.
  cbv zeta. intros Hs Ht Ha data u.
  destruct (enableRawMode_stack m s (hs ++ [h]) Hs Ht Ha)
    as (s1 & Hs1 & _ & ls & Hl1 & Hh1 & Hr1).
  assert (forall (l0 : list (Listener U)) (v : U),
            fold_left (fun u' l => callListener data l u') l0 v
            = fold_left (fun u' h' => h' (toString data) u') (map handler l0) v)
    as Hfold.
  { induction l0 as [| x l0 IH]; intros v; [reflexivity | simpl; apply IH]. }
  destruct ls as [| x ls0] using rev_ind.
  { destruct hs; discriminate. }
  clear IHls0. rewrite map_app in Hh1. simpl in Hh1.
  apply app_inj_tail in Hh1. destruct Hh1 as [Hh0 Hx].
  rewrite rev_app_distr in Hr1. simpl in Hr1.
  split.
  - unfold deliver, emit. rewrite Hs1, Hs, Hl1, fold_left_app, Hfold.
    now rewrite map_app, Hh0, <- Hx.
  - destruct (disableRawMode_detaches _ s1 Hs1) as (s2 & _ & Hs2 & _ & Hl2 & _).
    rewrite Hr1, Hl1, app_assoc, removeLast_last in Hl2.
    unfold deliver, emit. rewrite Hs2, Hs, Hl2, fold_left_app, Hfold.
    now rewrite Hh0.
Qed.

(** ** The controller *)

Lemma controller_eta (c : GameInputController U) :
  {| inputManager := inputManager c |} = c.
Proof. now destruct c. Qed.

(** X23.  On an input that is not a terminal [attachManualControls]
    returns [false] and leaves the controller as it was: no chunk is
    decoded for it. *)
Theorem attachManualControls_refused
  (c : GameInputController U) (handlers : ManualControlHandlers U) :
  stdinIsTTY (inputManager c) = false ->
  attachManualControls handlers c = (Returned false, c).
Proof.
  intros H. unfold attachManualControls.
  rewrite (enableRawMode_refused _ _ H). now rewrite controller_eta.
Qed.

Lemma detachManualControls_manager (c : GameInputController U) :
  fst (detachManualControls c) = fst (disableRawMode (inputManager c))
  /\ inputManager (snd (detachManualControls c))
     = snd (disableRawMode (inputManager c)).
Proof.
  unfold detachManualControls.
  now destruct (disableRawMode (inputManager c)).
Qed.

Lemma attachManualControls_manager
  (c : GameInputController U) (handlers : ManualControlHandlers U) :
  fst (attachManualControls handlers c)
  = fst (enableRawMode (manualControls handlers) (inputManager c))
  /\ inputManager (snd (attachManualControls handlers c))
     = snd (enableRawMode (manualControls handlers) (inputManager c)).
Proof.
  unfold attachManualControls.
  now destruct (enableRawMode (manualControls handlers) (inputManager c)).
Qed.

(** X24.  [detachManualControls] undoes a successful
    [attachManualControls]: it returns, and a chunk is handled as before
    the attachment, without [onExit] or [onAdvance]. *)
Theorem detachManualControls_undoes_attach
  (c c1 : GameInputController U) (handlers : ManualControlHandlers U) :
  let c2 := snd (detachManualControls c1) in
  attachManualControls handlers c = (Returned true, c1) ->
  fst (detachManualControls c1) = Returned tt
  /\ rawInputHandler (inputManager c2) = None
  /\ forall (data : Buffer) (u : U),
       deliver data (inputManager c2) u = deliver data (inputManager c) u.
Proof.
  cbv zeta. intros H.
  destruct (attachManualControls_true c c1 handlers H) as [Hf Hm].
  destruct (enableRawMode_true _ _ Hf) as (s & Hs & Ht & Ha).
  destruct (enableRawMode_attaches _ s (manualControls handlers) Hs Ht Ha)
    as (s1 & _ & Hs1 & _ & Hl1 & Hr1 & _).
  rewrite <- Hm in Hs1, Hr1.
  destruct (disableRawMode_detaches _ s1 Hs1)
    as (s2 & Hf2 & Hs2 & _ & Hl2 & Hr2 & _).
  rewrite Hr1, Hl1, removeLast_last in Hl2.
  destruct (detachManualControls_manager c1) as [-> ->].
  split; [exact Hf2 | split; [exact Hr2 |]].
  intros data u. unfold deliver, emit. now rewrite Hs2, Hs, Hl2.
Qed.

(** X25.  When a second [attachManualControls] without a detachment in
    between returns [true] as the first one did, the first decoder stays
    registered for good: a chunk goes to both decoders, and after
    [detachManualControls], called once or twice, it still goes to the
    first one. *)
Theorem first_manual_controls_stay_attached
  (c c1 c2 : GameInputController U) (first second : ManualControlHandlers U) :
  let c3 := snd (detachManualControls c2) in
  let c4 := snd (detachManualControls c3) in
  attachManualControls first c = (Returned true, c1) ->
  attachManualControls second c1 = (Returned true, c2) ->
  forall (data : Buffer) (u : U),
    let before := deliver data (inputManager c) u in
    deliver data (inputManager c2) u
    = manualControls second (toString data)
        (manualControls first (toString data) before)
    /\ deliver data (inputManager c3) u
       = manualControls first (toString data) before
    /\ deliver data (inputManager c4) u
       = manualControls first (toString data) before.
Proof.
  cbv zeta. intros H H2 data u.
  destruct (attachManualControls_true c c1 first H) as [Hf Hm].
  destruct (enableRawMode_true _ _ Hf) as (s & Hs & Ht & Ha).
  destruct (enableRawMode_attaches _ s (manualControls first) Hs Ht Ha)
    as (s1 & _ & Hs1 & _ & Hl1 & _).
  rewrite <- Hm in Hs1.
  destruct (attachManualControls_true c1 c2 second H2) as [Hf2 Hm2].
  destruct (enableRawMode_true _ _ Hf2) as (s1' & Hs1' & Ht1 & Ha1).
  assert (s1' = s1) by congruence. subst s1'.
  destruct (enableRawMode_attaches _ s1 (manualControls second) Hs1 Ht1 Ha1)
    as (s2 & _ & Hs2 & _ & Hl2 & Hr2 & _).
  rewrite <- Hm2 in Hs2, Hr2.
  destruct (disableRawMode_detaches _ s2 Hs2)
    as (s3 & _ & Hs3 & _ & Hl3 & Hr3 & He3 & _).
  rewrite Hr2, Hl2, removeLast_last in Hl3.
  destruct (detachManualControls_manager c2) as [_ Hm3].
  rewrite <- Hm3 in Hs3, Hr3, He3.
  destruct (detachManualControls_manager (snd (detachManualControls c2)))
    as [_ Hm4].
  rewrite Hm4, (disableRawMode_idle _ Hr3 He3). cbn [snd].
  unfold deliver, emit.
  rewrite Hs2, Hs3, Hs, Hl3, Hl2, Hl1, !fold_left_app.
  repeat split.
Qed.

End Further.

(** ** Further runs on sample configurations *)


Lemma promptYesNo_returns_first_valid_answer_witness :
  let m := managerOn (@terminal Calls ["maybe"; " Y "; "n"]) in
  (isInteractive m = true
   /\ Forall (fun l => yesNoAnswer noDefault l = None) ["maybe"]
   /\ yesNoAnswer noDefault " Y " = Some true)
  /\ fst (promptYesNo "Continue?" noDefault m) = Returned true
  /\ output (snd (promptYesNo "Continue?" noDefault m))
     = ["Continue? (y/n): "; "Continue? (y/n): "]
  /\ logged (snd (promptYesNo "Continue?" noDefault m))
     = [Warned [LogString "Please answer with y or n."]]
  /\ pendingLines (snd (promptYesNo "Continue?" noDefault m)) = ["n"].
Proof.
  cbv zeta. split; [repeat split; repeat constructor |].
  apply (promptYesNo_returns_first_valid_answer
           (managerOn (@terminal Calls ["maybe"; " Y "; "n"]))
           (terminal ["maybe"; " Y "; "n"]) "Continue?" noDefault
           ["maybe"] ["n"] " Y " true);
    try reflexivity; repeat constructor.
Defined.

Lemma promptText_returns_first_valid_answer_witness :
  let m := managerOn (@terminal Calls [" "; " Bob "; "x"]) in
  (isInteractive m = true
   /\ Forall (fun l => textAnswer noTextDefault l = None) [" "]
   /\ textAnswer noTextDefault " Bob " = Some "Bob")
  /\ fst (promptText "Name" noTextDefault m) = Returned "Bob"
  /\ output (snd (promptText "Name" noTextDefault m)) = ["Name: "; "Name: "]
  /\ logged (snd (promptText "Name" noTextDefault m))
     = [Warned [LogString "Input cannot be empty."]]
  /\ pendingLines (snd (promptText "Name" noTextDefault m)) = ["x"].
Proof.
  cbv zeta. split; [repeat split; repeat constructor |].
  apply (promptText_returns_first_valid_answer
           (managerOn (@terminal Calls [" "; " Bob "; "x"]))
           (terminal [" "; " Bob "; "x"]) "Name" noTextDefault
           [" "] ["x"] " Bob " "Bob");
    try reflexivity; repeat constructor.
Defined.

Lemma promptYesNo_suspended_without_valid_answer_witness :
  let m := managerOn (@terminal Calls ["maybe"; "si"]) in
  (isInteractive m = true /\ stdin m = Some (terminal ["maybe"; "si"]))
  /\ fst (promptYesNo "Continue?" noDefault m) = Pending
  /\ pendingLines (snd (promptYesNo "Continue?" noDefault m)) = [].
Proof.
  cbv zeta. split; [split; reflexivity |].
  destruct (promptYesNo_suspended_without_valid_answer
              (managerOn (@terminal Calls ["maybe"; "si"]))
              (terminal ["maybe"; "si"]) "Continue?" noDefault
              eq_refl eq_refl) as [Hiff Hthen].
  assert (fst (promptYesNo "Continue?" noDefault
                 (managerOn (@terminal Calls ["maybe"; "si"]))) = Pending) as Hp
    by (apply Hiff; repeat constructor).
  split; [exact Hp | exact (proj2 (proj2 (Hthen Hp)))].
Defined.

Lemma promptText_suspended_without_valid_answer_witness :
  let m := managerOn (@terminal Calls [""; "  "]) in
  (isInteractive m = true /\ stdin m = Some (terminal [""; "  "]))
  /\ fst (promptText "Name" noTextDefault m) = Pending
  /\ pendingLines (snd (promptText "Name" noTextDefault m)) = [].
Proof.
  cbv zeta. split; [split; reflexivity |].
  destruct (promptText_suspended_without_valid_answer
              (managerOn (@terminal Calls [""; "  "]))
              (terminal [""; "  "]) "Name" noTextDefault
              eq_refl eq_refl) as [Hiff Hthen].
  assert (fst (promptText "Name" noTextDefault
                 (managerOn (@terminal Calls [""; "  "]))) = Pending) as Hp
    by (apply Hiff; repeat constructor).
  split; [exact Hp | exact (proj2 (proj2 (Hthen Hp)))].
Defined.

Lemma promptYesNo_blank_line_takes_default_witness :
  let m := managerOn (@terminal Calls ["  "; "y"]) in
  let o := {| YesNoPromptOptions.defaultValue := Some false |} in
  (isInteractive m = true /\ trim "  " = "")
  /\ fst (promptYesNo "Generate a map?" o m) = Returned false
  /\ output (snd (promptYesNo "Generate a map?" o m)) = ["Generate a map? (y/n): "]
  /\ logged (snd (promptYesNo "Generate a map?" o m)) = []
  /\ pendingLines (snd (promptYesNo "Generate a map?" o m)) = ["y"].
Proof.
  cbv zeta. split; [split; reflexivity |].
  exact (promptYesNo_blank_line_takes_default
           (managerOn (@terminal Calls ["  "; "y"])) (terminal ["  "; "y"])
           "Generate a map?" "  " ["y"]
           {| YesNoPromptOptions.defaultValue := Some false |} false
           eq_refl eq_refl eq_refl eq_refl eq_refl).
Defined.

Lemma promptText_with_default_reads_one_line_witness :
  let m := managerOn (@terminal Calls [" Bob "; ""]) in
  let o := {| TextPromptOptions.defaultValue := Some "anonymous";
              TextPromptOptions.allowEmpty := None |} in
  isInteractive m = true
  /\ fst (promptText "Name" o m) = Returned "Bob"
  /\ output (snd (promptText "Name" o m)) = ["Name: "]
  /\ logged (snd (promptText "Name" o m)) = []
  /\ pendingLines (snd (promptText "Name" o m)) = [""].
Proof.
  cbv zeta. split; [reflexivity |].
  exact (promptText_with_default_reads_one_line
           (managerOn (@terminal Calls [" Bob "; ""])) (terminal [" Bob "; ""])
           "Name" " Bob " [""]
           {| TextPromptOptions.defaultValue := Some "anonymous";
              TextPromptOptions.allowEmpty := None |} "anonymous"
           eq_refl eq_refl eq_refl eq_refl).
Defined.

Lemma promptText_result_witness :
  let m := managerOn (@terminal Calls [" "; " Bob "]) in
  fst (promptText "Name" noTextDefault m) = Returned "Bob"
  /\ (TextPromptOptions.defaultValue noTextDefault = Some "Bob"
      \/ ("Bob" = "" /\ TextPromptOptions.allowEmpty noTextDefault = Some true)
      \/ ("Bob" <> "" /\ trim "Bob" = "Bob"
          /\ exists answer, In answer (pendingLines m) /\ "Bob" = trim answer)).
Proof.
  cbv zeta. split; [reflexivity |].
  exact (promptText_result (managerOn (@terminal Calls [" "; " Bob "]))
           "Name" noTextDefault "Bob" eq_refl).
Defined.

Lemma promptYesNo_result_witness :
  let m := managerOn (@terminal Calls ["maybe"; "No"]) in
  fst (promptYesNo "Continue?" noDefault m) = Returned false
  /\ (YesNoPromptOptions.defaultValue noDefault = Some false
      \/ exists answer,
           In answer (pendingLines m)
           /\ (toLowerCase (trim answer) = "n"
               \/ toLowerCase (trim answer) = "no")).
Proof.
  cbv zeta. split; [reflexivity |].
  exact (promptYesNo_result (managerOn (@terminal Calls ["maybe"; "No"]))
           "Continue?" noDefault false eq_refl).
Defined.

Lemma enableRawMode_failure_is_logged_witness :
  let m := managerOn (@cookedTerminal Calls) in
  (isTTY (@cookedTerminal Calls) = true
   /\ switchError (@cookedTerminal Calls) = Some (Error "setRawMode EIO"))
  /\ fst (enableRawMode (recording "h") m) = Returned false
  /\ logged (snd (enableRawMode (recording "h") m))
     = [Errored [LogString "Failed to enable raw mode input:";
                 LogThrown (Error "setRawMode EIO")]]
  /\ dataListeners (snd (enableRawMode (recording "h") m)) = [].
Proof.
  cbv zeta. split; [split; reflexivity |].
  destruct (enableRawMode_failure_is_logged
              (managerOn (@cookedTerminal Calls)) cookedTerminal
              (recording "h") (Error "setRawMode EIO")
              eq_refl eq_refl eq_refl) as (R & L & _ & _ & D).
  split; [exact R | split; [exact L | exact D]].
Defined.

Lemma terminal_left_raw_when_resume_throws_witness :
  let m1 := snd (enableRawMode (recording "h") (managerOn (@stalledTerminal Calls))) in
  (isTTY (@stalledTerminal Calls) = true
   /\ resumeThrows (@stalledTerminal Calls) = Some (Error "resume EBADF"))
  /\ fst (enableRawMode (recording "h") (managerOn (@stalledTerminal Calls)))
     = Returned false
  /\ terminalMode m1 = Some (true, false)
  /\ terminalMode (snd (disableRawMode m1)) = Some (true, false).
Proof.
  cbv zeta. split; [split; reflexivity |].
  destruct (terminal_left_raw_when_resume_throws
              (managerOn (@stalledTerminal Calls)) stalledTerminal
              (recording "h") (fun _ => None) (Error "resume EBADF")
              eq_refl eq_refl eq_refl eq_refl eq_refl eq_refl)
    as (R & T1 & _ & T2).
  split; [exact R | split; [exact T1 | exact T2]].
Defined.

Lemma disableRawMode_swallows_restore_failure_witness :
  let m := snd (enableRawMode (recording "h") (managerOn (@stubbornTerminal Calls))) in
  rawModeEnabled m = true
  /\ fst (disableRawMode m) = Returned tt
  /\ rawModeEnabled (snd (disableRawMode m)) = false
  /\ logged (snd (disableRawMode m))
     = [Warned [LogString "Failed to disable raw mode cleanly:";
                LogThrown (Error "setRawMode EIO")]].
Proof.
  cbv zeta. split; [reflexivity |].
  destruct (disableRawMode_swallows_restore_failure
              (snd (enableRawMode (recording "h")
                      (managerOn (@stubbornTerminal Calls))))
              _ (Error "setRawMode EIO") eq_refl eq_refl eq_refl)
    as (R & E & _ & L & _).
  split; [exact R | split; [exact E | exact L]].
Defined.

Lemma enable_then_disable_restores_listeners_witness :
  let m := managerOn sharedTerminal in
  let m2 := snd (disableRawMode (snd (enableRawMode (recording "h") m))) in
  (stdin m = Some sharedTerminal /\ isTTY sharedTerminal = true
   /\ rawModeAvailable sharedTerminal = true)
  /\ dataListeners m2 = dataListeners m
  /\ deliver (chunk "a") m2 [] = [("other", "a")].
Proof.
  cbv zeta. split; [repeat split |].
  destruct (enable_then_disable_restores_listeners
              (managerOn sharedTerminal) sharedTerminal (recording "h")
              eq_refl eq_refl eq_refl) as (_ & L & _ & _ & D).
  split; [exact L | exact (D (chunk "a") [])].
Defined.

Lemma raw_mode_switches_the_terminal_witness :
  let m := managerOn (@terminal Calls []) in
  let m1 := snd (enableRawMode (recording "h") m) in
  (isTTY (@terminal Calls []) = true /\ wellBehaved (@terminal Calls []))
  /\ terminalMode m1 = Some (true, true)
  /\ terminalMode (snd (disableRawMode m1)) = Some (false, false).
Proof.
  cbv zeta.
  assert (wellBehaved (@terminal Calls [])) as W.
  { split; [| split; reflexivity].
    exists (fun _ => None). split; reflexivity. }
  split; [split; [reflexivity | exact W] |].
  exact (proj2 (raw_mode_switches_the_terminal
                  (managerOn (@terminal Calls [])) (terminal [])
                  (recording "h") eq_refl eq_refl W)).
Defined.

Lemma enableRawMode_without_setRawMode_witness :
  let m := managerOn (@plainTerminal Calls) in
  let m1 := snd (enableRawMode (recording "h") m) in
  (isTTY (@plainTerminal Calls) = true /\ setRawMode (@plainTerminal Calls) = None)
  /\ fst (enableRawMode (recording "h") m) = Returned true
  /\ terminalMode m1 = Some (false, true)
  /\ deliver (chunk "a") m1 [] = [("h", "a")].
Proof.
  cbv zeta. split; [split; reflexivity |].
  destruct (enableRawMode_without_setRawMode
              (managerOn (@plainTerminal Calls)) plainTerminal (recording "h")
              eq_refl eq_refl eq_refl eq_refl) as (R & T & _ & D).
  split; [exact R | split; [exact T | exact (D (chunk "a") [])]].
Defined.

Lemma stored_handler_stays_registered_witness :
  let calls :=
    [CallEnableRawMode (recording "h"); CallEnableRawMode (recording "h2");
     CallPromptYesNo "Continue?" noDefault; CallDisableRawMode;
     CallEnableRawMode (recording "h3")] in
  let m := afterAll calls (managerOn (@terminal Calls ["y"])) in
  dataListeners (managerOn (@terminal Calls ["y"])) = []
  /\ (forall l, rawInputHandler m = Some l ->
        In l (dataListeners m) /\ rawModeEnabled m = true)
  /\ NoDup (map closure (dataListeners m)).
Proof.
  cbv zeta. split; [reflexivity |].
  exact (stored_handler_stays_registered nodeProcess
           {| optStdin := Some (terminal ["y"]);
              optStdout := Some blankOutput;
              optLogger := Some fullLogger |}
           [CallEnableRawMode (recording "h"); CallEnableRawMode (recording "h2");
            CallPromptYesNo "Continue?" noDefault; CallDisableRawMode;
            CallEnableRawMode (recording "h3")]
           eq_refl).
Defined.

Lemma enableRawMode_calls_add_up_witness :
  let calls := map CallEnableRawMode [recording "a"; recording "b"; recording "c"] in
  let m' := afterAll calls (managerOn (@terminal Calls [])) in
  (isTTY (@terminal Calls []) = true
   /\ rawModeAvailable (@terminal Calls []) = true)
  /\ deliver (chunk "k") m' [] = [("a", "k"); ("b", "k"); ("c", "k")]
  /\ deliver (chunk "k") (snd (disableRawMode m')) [] = [("a", "k"); ("b", "k")].
Proof.
  cbv zeta. split; [split; reflexivity |].
  exact (enableRawMode_calls_add_up
           (managerOn (@terminal Calls [])) (terminal [])
           [recording "a"; recording "b"] (recording "c")
           eq_refl eq_refl eq_refl (chunk "k") []).
Defined.

Lemma attachManualControls_refused_witness :
  let c := newGameInputController nodeProcess
             (Some (managerOn (@pipe (nat * nat)))) in
  stdinIsTTY (inputManager c) = false
  /\ attachManualControls counting c = (Returned false, c).
Proof.
  cbv zeta. split; [reflexivity |].
  exact (attachManualControls_refused
           (newGameInputController nodeProcess
              (Some (managerOn (@pipe (nat * nat))))) counting eq_refl).
Defined.

Lemma detachManualControls_undoes_attach_witness :
  let c := newGameInputController nodeProcess
             (Some (managerOn (@terminal (nat * nat) []))) in
  let c1 := snd (attachManualControls counting c) in
  let c2 := snd (detachManualControls c1) in
  attachManualControls counting c = (Returned true, c1)
  /\ fst (detachManualControls c1) = Returned tt
  /\ deliver (chunk ESC) (inputManager c2) (0, 0) = (0, 0).
Proof.
  cbv zeta. split; [reflexivity |].
  destruct (detachManualControls_undoes_attach
              (newGameInputController nodeProcess
                 (Some (managerOn (@terminal (nat * nat) []))))
              _ counting eq_refl) as (R & _ & D).
  split; [exact R | exact (D (chunk ESC) (0, 0))].
Defined.

Lemma first_manual_controls_stay_attached_witness :
  let c := newGameInputController nodeProcess
             (Some (managerOn (@terminal (nat * nat) []))) in
  let c1 := snd (attachManualControls counting c) in
  let c2 := snd (attachManualControls counting c1) in
  let c4 := snd (detachManualControls (snd (detachManualControls c2))) in
  (attachManualControls counting c = (Returned true, c1)
   /\ attachManualControls counting c1 = (Returned true, c2))
  /\ deliver (chunk ESC) (inputManager c2) (0, 0) = (2, 0)
  /\ deliver (chunk ESC) (inputManager c4) (0, 0) = (1, 0).
Proof.
  intros c c1 c2 c4.
  assert (attachManualControls counting c = (Returned true, c1)) as H1
    by (vm_compute; reflexivity).
  assert (attachManualControls counting c1 = (Returned true, c2)) as H2
    by (vm_compute; reflexivity).
  split; [split; assumption |].
  destruct (first_manual_controls_stay_attached c c1 c2 counting counting
              H1 H2 (chunk ESC) (0, 0)) as (D2 & _ & D4).
  split; [exact D2 | exact D4].
Defined.
